(** * data_converter: conversion of documents between XML, JSON and YAML

    A shallow embedding of [src/python/data_converter.py].  The functions of
    the module are translated one by one; the three format libraries the
    module calls ([json], [yaml], [xmltodict]) are not part of the
    repository and enter the development as a record of functions, with
    every call written to a log so that the order and the arguments of the
    calls can be stated.

    The merge of [src/update_pyproject_tools.py] follows, on documents as
    lists of keys, with [tomlkit] as a record of functions. *)

From Stdlib Require Import ZArith Ascii String List Bool Lia.
From stdpp Require Import base list strings.

Local Open Scope string_scope.

(** ** Python [str]

    A [str] is modelled as a [string] whose characters are the code points
    below 256. *)

Definition nl : ascii := "010"%char.
Definition nl_str : string := String nl EmptyString.

Definition str_is_empty (s : string) : bool :=
  match s with EmptyString => true | String _ _ => false end.

(** [str.isspace] on one character, for code points below 256: the ASCII
    whitespace table (TAB, LF, VT, FF, CR, FS, GS, RS, US, SPACE), NEL and
    NBSP. *)
Definition is_space (c : ascii) : bool :=
  let n := N_of_ascii c in
  ((9 <=? n) && (n <=? 13) || (28 <=? n) && (n <=? 32) || (n =? 133) || (n =? 160))%N.

Definition is_nl (c : ascii) : bool := Ascii.eqb c nl.

(** [s.rstrip(chars)]: removes the longest suffix made of characters that
    satisfy [p]. *)
Fixpoint rstrip_with (p : ascii -> bool) (s : string) : string :=
  match s with
  | EmptyString => EmptyString
  | String c t =>
      let t' := rstrip_with p t in
      if str_is_empty t' && p c then EmptyString else String c t'
  end.

(** [s.rstrip()] *)
Definition rstrip : string -> string := rstrip_with is_space.

(** [s.rstrip("\n")] *)
Definition rstrip_nl : string -> string := rstrip_with is_nl.

(** [s.split(sep)] for a separator of one character.  The result is never
    empty: [''.split(sep) == ['']]. *)
Fixpoint split (sep : ascii) (s : string) : list string :=
  match s with
  | EmptyString => [EmptyString]
  | String c t =>
      if Ascii.eqb c sep then EmptyString :: split sep t
      else match split sep t with
           | w :: ws => String c w :: ws
           | [] => [String c EmptyString]
           end
  end.

(** [sep.join(parts)] *)
Fixpoint join (sep : string) (parts : list string) : string :=
  match parts with
  | [] => EmptyString
  | [x] => x
  | x :: rest => x +:+ sep +:+ join sep rest
  end.

(** [c in s] for a one-character [c]. *)
Fixpoint str_contains (c : ascii) (s : string) : bool :=
  match s with
  | EmptyString => false
  | String a t => Ascii.eqb a c || str_contains c t
  end.

(** [x in xs] on a list of strings. *)
Fixpoint str_in (x : string) (xs : list string) : bool :=
  match xs with
  | [] => false
  | y :: ys => String.eqb x y || str_in x ys
  end.

(** ** Exceptions and outcomes *)

Inductive exn_class : Type :=
| ValueError
| FileNotFoundError
| JSONDecodeError
| YAMLError
| ExpatError
| OtherException (name : string).

(** An exception object: its class, its message and, where the library
    gives one, the position (line, column) of the fault. *)
Record exn : Type := mk_exn {
  exn_cls : exn_class;
  exn_msg : string;
  exn_pos : option (nat * nat)
}.

Inductive outcome (A : Type) : Type :=
| Returns (a : A)
| Raises (e : exn).
Arguments Returns {A} a.
Arguments Raises {A} e.

Definition value_error (msg : string) : exn := mk_exn ValueError msg None.

(** [except yaml.YAMLError]: the class [YAMLError] stands for
    [yaml.YAMLError] and its subclasses. *)
Definition is_YAMLError (e : exn) : bool :=
  match exn_cls e with YAMLError => true | _ => false end.

(** ** parse_mode *)

Definition MODE_SEPARATOR : ascii := "2"%char.
Definition EXPECTED_PARTS : nat := 2.

Definition supported_formats : list string := ["xml"; "json"; "yaml"].

Definition msg_no_separator (mode : string) : string :=
  "Invalid mode format: " +:+ mode +:+
  ". Expected format: 'from2to' (e.g., 'xml2json')".

Definition msg_parts (mode : string) : string :=
  "Invalid mode format: " +:+ mode +:+ ". Expected exactly one '" +:+
  String MODE_SEPARATOR EmptyString +:+ "' separator".

Definition msg_source (from_fmt : string) : string :=
  "Unsupported source format: " +:+ from_fmt +:+ ". Supported: " +:+
  join ", " supported_formats.

Definition msg_target (to_fmt : string) : string :=
  "Unsupported target format: " +:+ to_fmt +:+ ". Supported: " +:+
  join ", " supported_formats.

Definition msg_same (from_fmt : string) : string :=
  "Source and target formats are the same: " +:+ from_fmt.

Definition parse_mode (mode : string) : outcome (string * string) :=
  if negb (str_contains MODE_SEPARATOR mode) then
    Raises (value_error (msg_no_separator mode))
  else
    let parts := split MODE_SEPARATOR mode in
    if negb (Nat.eqb (length parts) EXPECTED_PARTS) then
      Raises (value_error (msg_parts mode))
    else
      match parts with
      | [from_fmt; to_fmt] =>
          if negb (str_in from_fmt supported_formats) then
            Raises (value_error (msg_source from_fmt))
          else if negb (str_in to_fmt supported_formats) then
            Raises (value_error (msg_target to_fmt))
          else if String.eqb from_fmt to_fmt then
            Raises (value_error (msg_same from_fmt))
          else Returns (from_fmt, to_fmt)
      | _ => Raises (value_error (msg_parts mode))
      end.

(** ** Python values

    What the three readers return and the writers accept: [None], [bool],
    [int], [float] (its IEEE-754 bit pattern, never inspected here), [str],
    [list], [dict], [collections.OrderedDict], and any other object.  A
    [dict] keeps its items in insertion order; its keys are strings. *)

#[warnings="-register-all"] Inductive pyval : Type :=
| PNone
| PBool (b : bool)
| PInt (z : Z)
| PFloat (bits : Z)
| PStr (s : string)
| PList (xs : list pyval)
| PDict (items : list (string * pyval))
| POrderedDict (items : list (string * pyval))
| POpaque (tag : string).

(** [d[k] = v]: an existing key keeps its place, a new key goes last. *)
Fixpoint dict_setitem {V : Type} (d : list (string * V)) (k : string) (v : V)
  : list (string * V) :=
  match d with
  | [] => [(k, v)]
  | (k', v') :: rest =>
      if String.eqb k' k then (k', v) :: rest
      else (k', v') :: dict_setitem rest k v
  end.

(** [{k: v for k, v in pairs}] *)
Definition dict_from_pairs {V : Type} (pairs : list (string * V))
  : list (string * V) :=
  fold_left (fun d kv => dict_setitem d (fst kv) (snd kv)) pairs [].

(** ** clean_data_for_yaml *)

(** The [str] branch. *)
Definition clean_str (data : string) : string :=
  let lines := split nl (rstrip_nl data) in
  let cleaned_lines := map rstrip lines in
  rstrip (join nl_str cleaned_lines).

Fixpoint clean_data_for_yaml (data : pyval) : pyval :=
  match data with
  | PDict items | POrderedDict items =>
      PDict (dict_from_pairs
               (map (fun '(key, value) => (key, clean_data_for_yaml value)) items))
  | PList xs => PList (map clean_data_for_yaml xs)
  | PStr s => PStr (clean_str s)
  | _ => data
  end.

(** One item of the comprehension. *)
Definition clean_item (kv : string * pyval) : string * pyval :=
  (fst kv, clean_data_for_yaml (snd kv)).

(** ** The format libraries

    [json], [yaml] and [xmltodict] as the module uses them.  Each function
    returns a value or raises. *)

Record library : Type := mk_library {
  json_loads : string -> outcome pyval;
  (** [json.dumps(data, indent=n)] *)
  json_dumps : pyval -> nat -> outcome string;
  yaml_safe_load : string -> outcome pyval;
  (** [yaml.load(content, Loader=yaml.Loader)] *)
  yaml_load : string -> outcome pyval;
  yaml_dump : pyval -> outcome string;
  xmltodict_parse : string -> outcome pyval;
  xmltodict_unparse : pyval -> outcome string
}.

(** A library call, as it is written to the log. *)
Inductive call : Type :=
| CallJsonLoads (content : string)
| CallJsonDumps (data : pyval) (indent : nat)
| CallYamlSafeLoad (content : string)
| CallYamlLoad (content : string)
| CallYamlDump (data : pyval)
| CallXmlParse (content : string)
| CallXmlUnparse (data : pyval).

(** ** Computations: exceptions and a log of library calls *)

Definition M (A : Type) : Type := list call -> outcome A * list call.

Definition ret {A : Type} (a : A) : M A := fun log => (Returns a, log).

Definition raise {A : Type} (e : exn) : M A := fun log => (Raises e, log).

Definition bind {A B : Type} (m : M A) (f : A -> M B) : M B :=
  fun log =>
    match m log with
    | (Returns a, log') => f a log'
    | (Raises e, log') => (Raises e, log')
    end.

(** [try: m except <class>: handler] *)
Definition try_except {A : Type} (m : M A) (catches : exn -> bool)
    (handler : M A) : M A :=
  fun log =>
    match m log with
    | (Raises e, log') => if catches e then handler log' else (Raises e, log')
    | r => r
    end.

Definition lift {A : Type} (o : outcome A) : M A := fun log => (o, log).

(** The call [c] is logged and gives what the library gave. *)
Definition perform {A : Type} (c : call) (o : outcome A) : M A :=
  fun log => (o, (log ++ [c])%list).

Definition run {A : Type} (m : M A) : outcome A * list call := m [].

Notation "x <- m ;; k" := (bind m (fun x => k))
  (at level 100, m at next level, right associativity).

Section Converter.

Variable lib : library.

(** The files of the host, by path. *)
Variable fs : string -> option string.

Definition read_input_file (input_file : string) : M string :=
  match fs input_file with
  | None =>
      raise (mk_exn FileNotFoundError
               ("Input file not found: " +:+ input_file) None)
  | Some content => ret content
  end.

Definition load_data (content from_fmt : string) : M pyval :=
  if String.eqb from_fmt "xml" then
    perform (CallXmlParse content) (xmltodict_parse lib content)
  else if String.eqb from_fmt "json" then
    perform (CallJsonLoads content) (json_loads lib content)
  else if String.eqb from_fmt "yaml" then
    try_except
      (perform (CallYamlSafeLoad content) (yaml_safe_load lib content))
      is_YAMLError
      (perform (CallYamlLoad content) (yaml_load lib content))
  else raise (value_error ("Unexpected source format: " +:+ from_fmt)).

Definition convert_data (data : pyval) (to_fmt : string) : M string :=
  if String.eqb to_fmt "xml" then
    perform (CallXmlUnparse data) (xmltodict_unparse lib data)
  else if String.eqb to_fmt "json" then
    perform (CallJsonDumps data 2) (json_dumps lib data 2)
  else if String.eqb to_fmt "yaml" then
    let clean_data := clean_data_for_yaml data in
    perform (CallYamlDump clean_data) (yaml_dump lib clean_data)
  else raise (value_error ("Unexpected target format: " +:+ to_fmt)).

(** [sub_main] up to the text it hands to [write_output]. *)
Definition sub_main (input_file mode : string) : M string :=
  parts <- lift (parse_mode mode) ;;
  let '(from_fmt, to_fmt) := parts in
  content <- read_input_file input_file ;;
  data <- load_data content from_fmt ;;
  convert_data data to_fmt.

End Converter.

(** ** The store

    [clean_data_for_yaml] once more, on objects that live in a store and are
    reached through references, as Python has them: a [dict] or a [list]
    argument is an address, and the function could write to it.  The
    function on [pyval] above is what this one computes on the values the
    references stand for. *)

Module Store.

Definition loc : Type := nat.

(** What a variable or a container slot holds: an immutable scalar or a
    reference. *)
Inductive val : Type :=
| VNone
| VBool (b : bool)
| VInt (z : Z)
| VFloat (bits : Z)
| VStr (s : string)
| VRef (l : loc).

Inductive object : Type :=
| ODict (items : list (string * val))
| OOrderedDict (items : list (string * val))
| OList (xs : list val)
| OOpaque (tag : string).

(** Addresses are positions; a new object goes to the end. *)
Definition heap : Type := list object.

Definition alloc (h : heap) (o : object) : heap * val :=
  ((h ++ [o])%list, VRef (length h)).

(** A comprehension [[f(x) for x in xs]], threading the store. *)
Fixpoint map_in {A B : Type} (f : heap -> A -> option (heap * B)) (h : heap)
    (xs : list A) : option (heap * list B) :=
  match xs with
  | [] => Some (h, [])
  | x :: rest =>
      '(h1, y) ← f h x;
      '(h2, ys) ← map_in f h1 rest;
      Some (h2, y :: ys)
  end.

(** [(key, f(value))] for one item. *)
Definition on_value (f : heap -> val -> option (heap * val)) (h : heap)
    (kv : string * val) : option (heap * (string * val)) :=
  '(h', y) ← f h (snd kv);
  Some (h', (fst kv, y)).

(** [depth] bounds the recursion, as the interpreter does; [None] is a
    run that does not return (recursion limit, or an address that holds
    nothing). *)
Fixpoint clean_data_for_yaml_in (depth : nat) (h : heap) (data : val)
  : option (heap * val) :=
  match depth with
  | 0 => None
  | S d =>
      match data with
      | VRef l =>
          match h !! l with
          | Some (ODict items) | Some (OOrderedDict items) =>
              '(h', items') ← map_in (on_value (clean_data_for_yaml_in d)) h items;
              Some (alloc h' (ODict (dict_from_pairs items')))
          | Some (OList xs) =>
              '(h', ys) ← map_in (clean_data_for_yaml_in d) h xs;
              Some (alloc h' (OList ys))
          | Some (OOpaque _) => Some (h, data)
          | None => None
          end
      | VStr s => Some (h, VStr (clean_str s))
      | _ => Some (h, data)
      end
  end.

Definition decode_item (dec : val -> option pyval) (kv : string * val)
  : option (string * pyval) :=
  t ← dec (snd kv);
  Some (fst kv, t).

(** The value a store value stands for, followed to [depth] references. *)
Fixpoint decode (depth : nat) (h : heap) (v : val) : option pyval :=
  match v with
  | VNone => Some PNone
  | VBool b => Some (PBool b)
  | VInt z => Some (PInt z)
  | VFloat bits => Some (PFloat bits)
  | VStr s => Some (PStr s)
  | VRef l =>
      match depth with
      | 0 => None
      | S d =>
          match h !! l with
          | Some (ODict items) =>
              PDict <$> mapM (decode_item (decode d h)) items
          | Some (OOrderedDict items) =>
              POrderedDict <$> mapM (decode_item (decode d h)) items
          | Some (OList xs) => PList <$> mapM (decode d h) xs
          | Some (OOpaque tag) => Some (POpaque tag)
          | None => None
          end
      end
  end.

Definition is_container (h : heap) (v : val) : bool :=
  match v with
  | VRef l =>
      match h !! l with
      | Some (ODict _) | Some (OOrderedDict _) | Some (OList _) => true
      | _ => false
      end
  | _ => false
  end.

Definition is_fresh (h : heap) (v : val) : bool :=
  match v with
  | VRef l => Nat.leb (length h) l
  | _ => false
  end.

End Store.

(** ** Definitions used in the statements *)

(** A list of lines without the empty lines at its end. *)
Fixpoint drop_trailing_empty (ls : list string) : list string :=
  match ls with
  | [] => []
  | x :: rest =>
      match drop_trailing_empty rest with
      | [] => if str_is_empty x then [] else [x]
      | rest' => x :: rest'
      end
  end.

(** The lines of a text whose lines are [ls]: the empty text has one
    empty line. *)
Definition lines_or_blank (ls : list string) : list string :=
  match ls with
  | [] => [EmptyString]
  | _ => ls
  end.

(** No character of the suffix-set [p] ends [s]. *)
Definition stripped (p : ascii -> bool) (s : string) : Prop :=
  rstrip_with p s = s.

(** [len(set(keys)) == len(keys)] *)
Fixpoint keys_unique (ks : list string) : bool :=
  match ks with
  | [] => true
  | k :: rest => negb (str_in k rest) && keys_unique rest
  end.

(** A value Python can hold: no mapping has a key twice. *)
Fixpoint well_formed (v : pyval) : bool :=
  match v with
  | PList xs => forallb well_formed xs
  | PDict items | POrderedDict items =>
      keys_unique (map fst items) &&
      forallb (fun kv => well_formed (snd kv)) items
  | _ => true
  end.

(** The Canonical Value of the data model: Null, Boolean, Number, String,
    Sequence and Mapping only. *)
Fixpoint canonical (v : pyval) : bool :=
  match v with
  | PList xs => forallb canonical xs
  | PDict items =>
      keys_unique (map fst items) &&
      forallb (fun kv => canonical (snd kv)) items
  | POrderedDict _ | POpaque _ => false
  | _ => true
  end.

(** Some node is an ordered map. *)
Fixpoint has_ordered (v : pyval) : bool :=
  match v with
  | PList xs => existsb has_ordered xs
  | PDict items => existsb (fun kv => has_ordered (snd kv)) items
  | POrderedDict _ => true
  | _ => false
  end.

(** A text without trailing whitespace, on any line and at its end. *)
Definition str_normalized (s : string) : bool :=
  String.eqb (rstrip s) s &&
  forallb (fun l => String.eqb (rstrip l) l) (split nl s).

(** Every string of the value is normalized. *)
Fixpoint normalized (v : pyval) : bool :=
  match v with
  | PStr s => str_normalized s
  | PList xs => forallb normalized xs
  | PDict items | POrderedDict items =>
      forallb (fun kv => normalized (snd kv)) items
  | _ => true
  end.

(** The shape of a value: its nesting and, for each mapping, its keys in
    order. *)
#[warnings="-register-all"] Inductive skeleton : Type :=
| SkLeaf
| SkList (xs : list skeleton)
| SkMap (items : list (string * skeleton)).

Fixpoint skeleton_of (v : pyval) : skeleton :=
  match v with
  | PList xs => SkList (map skeleton_of xs)
  | PDict items | POrderedDict items =>
      SkMap (map (fun kv => (fst kv, skeleton_of (snd kv))) items)
  | _ => SkLeaf
  end.

(** [isinstance(data, (str, int, float, bool))] or [data is None] *)
Definition is_scalar (v : pyval) : bool :=
  match v with
  | PNone | PBool _ | PInt _ | PFloat _ | PStr _ => true
  | _ => false
  end.

(** Two items with the same key and related values. *)
Definition items_related {V W : Type} (R : V -> W -> Prop)
    (p : string * V) (q : string * W) : Prop :=
  fst p = fst q /\ R (snd p) (snd q).

(** Writing a value in a format and reading the text back in the same
    format. *)
Definition round_trip (lib : library) (v : pyval) (fmt : string) : M pyval :=
  text <- convert_data lib v fmt ;;
  load_data lib text fmt.

(** One conversion of a text: [sub_main] on a host whose input file holds
    [input_text]. *)
Definition convert (lib : library) (input_text directive : string) : M string :=
  sub_main lib (fun _ => Some input_text) "input" directive.

(** The safe parse fails: [yaml.safe_load] raises [yaml.YAMLError], the
    class the handler of [load_data] names. *)
Definition safe_parse_fails (o : outcome pyval) : bool :=
  match o with
  | Raises e => is_YAMLError e
  | Returns _ => false
  end.

(** The library calls [load_data] makes on a text of a supported format. *)
Definition reader_calls (lib : library) (fmt content : string) : list call :=
  if String.eqb fmt "xml" then [CallXmlParse content]
  else if String.eqb fmt "json" then [CallJsonLoads content]
  else if safe_parse_fails (yaml_safe_load lib content)
       then [CallYamlSafeLoad content; CallYamlLoad content]
       else [CallYamlSafeLoad content].

(** A root that markup cannot take: a Sequence, or a Mapping with more
    than one key. *)
Definition invalid_markup_root (v : pyval) : bool :=
  match v with
  | PList _ => true
  | PDict items | POrderedDict items => Nat.ltb 1 (length items)
  | _ => false
  end.

(** What the writer of a format other than xml hands to its library. *)
Definition written_value (to_fmt : string) (v : pyval) : pyval :=
  if String.eqb to_fmt "yaml" then clean_data_for_yaml v else v.

(** The serializer [convert_data] calls for a format other than xml. *)
Definition library_dump (lib : library) (to_fmt : string) (v : pyval)
  : outcome string :=
  if String.eqb to_fmt "json" then json_dumps lib v 2 else yaml_dump lib v.

(** Cross-format equivalence on one json text [t] that parses to [v]:
    json2yaml, then yaml2json on the output, gives a json text whose value
    is [v]. *)
Definition cross_format_equal (lib : library) (t : string) (v : pyval) : Prop :=
  exists y j,
    fst (run (convert lib t "json2yaml")) = Returns y /\
    fst (run (convert lib y "yaml2json")) = Returns j /\
    json_loads lib j = Returns v.

(** The yaml writer and reader give [v] back with its keys in order. *)
Definition key_order_kept (lib : library) (v : pyval) : Prop :=
  exists w,
    fst (run (round_trip lib v "yaml")) = Returns w /\
    skeleton_of w = skeleton_of v.

Definition dq : string := String "034"%char EmptyString.

(** Two mappings that differ in one trailing space, and their json
    texts. *)
Definition dict_a_space : pyval := PDict [("k", PStr "a ")].
Definition dict_a : pyval := PDict [("k", PStr "a")].

Definition json_dict (s : string) : string :=
  "{" +:+ dq +:+ "k" +:+ dq +:+ ": " +:+ dq +:+ s +:+ dq +:+ "}".
Definition json_a_space : string := json_dict "a ".
Definition json_a : string := json_dict "a".

(** One mapping, its two keys in the two orders. *)
Definition dict_b_a : pyval := PDict [("b", PInt 1); ("a", PInt 2)].
Definition dict_a_b : pyval := PDict [("a", PInt 2); ("b", PInt 1)].

(** ** A sample of library behaviour

    What the libraries give on a few texts and values, written as tables.
    The sample instantiates the statements below at concrete inputs; no
    statement depends on it. *)

Fixpoint pyval_eqb (a b : pyval) : bool :=
  match a, b with
  | PNone, PNone => true
  | PBool x, PBool y => Bool.eqb x y
  | PInt x, PInt y => Z.eqb x y
  | PFloat x, PFloat y => Z.eqb x y
  | PStr x, PStr y => String.eqb x y
  | PList xs, PList ys =>
      (fix go (xs ys : list pyval) : bool :=
         match xs, ys with
         | [], [] => true
         | x :: xs', y :: ys' => pyval_eqb x y && go xs' ys'
         | _, _ => false
         end) xs ys
  | PDict xs, PDict ys | POrderedDict xs, POrderedDict ys =>
      (fix go (xs ys : list (string * pyval)) : bool :=
         match xs, ys with
         | [], [] => true
         | (k, x) :: xs', (k', y) :: ys' =>
             String.eqb k k' && pyval_eqb x y && go xs' ys'
         | _, _ => false
         end) xs ys
  | POpaque x, POpaque y => String.eqb x y
  | _, _ => false
  end.

Definition not_in_sample {A : Type} : outcome A :=
  Raises (mk_exn (OtherException "LookupError") "not in the sample" None).

Fixpoint table_load (tbl : list (string * outcome pyval)) (text : string)
  : outcome pyval :=
  match tbl with
  | [] => not_in_sample
  | (t, o) :: rest => if String.eqb t text then o else table_load rest text
  end.

Fixpoint table_dump (tbl : list (pyval * outcome string)) (v : pyval)
  : outcome string :=
  match tbl with
  | [] => not_in_sample
  | (w, o) :: rest => if pyval_eqb w v then o else table_dump rest v
  end.

Definition sample_value : pyval := PDict [("a", PStr "x ")].
Definition sample_cleaned : pyval := PDict [("a", PStr "x")].

Definition json_of_sample (s : string) : string :=
  "{" +:+ nl_str +:+ "  " +:+ dq +:+ "a" +:+ dq +:+ ": " +:+
  dq +:+ s +:+ dq +:+ nl_str +:+ "}".

Definition yaml_of_sample : string := "a: x" +:+ nl_str.

Definition xml_of_sample : string :=
  "<?xml version=" +:+ dq +:+ "1.0" +:+ dq +:+ " encoding=" +:+ dq +:+
  "utf-8" +:+ dq +:+ "?>" +:+ nl_str +:+ "<a>x </a>".

Definition sample_library : library := {|
  json_loads := table_load
    [(json_of_sample "x ", Returns sample_value);
     (json_of_sample "x", Returns sample_cleaned)];
  json_dumps := fun v _ => table_dump
    [(sample_value, Returns (json_of_sample "x "));
     (sample_cleaned, Returns (json_of_sample "x"));
     (PNone, Returns "null")] v;
  yaml_safe_load := table_load
    [(yaml_of_sample, Returns sample_cleaned); ("", Returns PNone)];
  yaml_load := table_load
    [(yaml_of_sample, Returns sample_cleaned); ("", Returns PNone)];
  yaml_dump := table_dump [(sample_cleaned, Returns yaml_of_sample)];
  xmltodict_parse := table_load [(xml_of_sample, Returns sample_cleaned)];
  xmltodict_unparse := table_dump [(sample_value, Returns xml_of_sample)]
|}.

(** A yaml text whose safe parse raises an exception that is no
    [yaml.YAMLError]: the tag asks for an [int] and the scalar is none. *)
Definition int_tag_text : string := "!!int abc".

Definition int_tag_error : exn :=
  value_error "invalid literal for int() with base 10: 'abc'".

Definition int_tag_library : library := {|
  json_loads := json_loads sample_library;
  json_dumps := json_dumps sample_library;
  yaml_safe_load := fun text =>
    if String.eqb text int_tag_text then Raises int_tag_error
    else yaml_safe_load sample_library text;
  yaml_load := fun text =>
    if String.eqb text int_tag_text then Raises int_tag_error
    else yaml_load sample_library text;
  yaml_dump := yaml_dump sample_library;
  xmltodict_parse := xmltodict_parse sample_library;
  xmltodict_unparse := xmltodict_unparse sample_library
|}.

(** A root Mapping with two keys, and a library whose [xmltodict.unparse]
    writes a document for it. *)
Definition two_key_root : pyval := PDict [("a", PInt 1); ("b", PInt 2)].

Definition two_key_document : string :=
  "<?xml version=" +:+ dq +:+ "1.0" +:+ dq +:+ " encoding=" +:+ dq +:+
  "utf-8" +:+ dq +:+ "?>" +:+ nl_str +:+ "<a>1</a><b>2</b>".

Definition two_root_library : library := {|
  json_loads := json_loads sample_library;
  json_dumps := json_dumps sample_library;
  yaml_safe_load := yaml_safe_load sample_library;
  yaml_load := yaml_load sample_library;
  yaml_dump := yaml_dump sample_library;
  xmltodict_parse := xmltodict_parse sample_library;
  xmltodict_unparse := fun v =>
    if pyval_eqb v two_key_root then Returns two_key_document
    else xmltodict_unparse sample_library v
|}.

(** The json text of the string "a " with its trailing space. *)
Definition json_str_a_space : string := dq +:+ "a " +:+ dq.

(** [c * n] *)
Fixpoint str_repeat (c : ascii) (n : nat) : string :=
  match n with
  | O => EmptyString
  | S n' => String c (str_repeat c n')
  end.

(** A yaml integer in base 16 with 4001 digits, and a library whose
    [json.dumps] refuses to write an [int] of more than 4300 decimal
    digits, as the interpreter's limit on the conversion of integers to
    text has it. *)
Definition hex_int_text : string := "0x1" +:+ str_repeat "0"%char 4000.

Definition hex_int : pyval := PInt (2 ^ 16000).

Definition digit_limit_error : exn :=
  value_error "Exceeds the limit (4300 digits) for integer string conversion".

Definition digit_limit_library : library := {|
  json_loads := json_loads sample_library;
  json_dumps := fun v indent =>
    if pyval_eqb v hex_int then Raises digit_limit_error
    else json_dumps sample_library v indent;
  yaml_safe_load := fun text =>
    if String.eqb text hex_int_text then Returns hex_int
    else yaml_safe_load sample_library text;
  yaml_load := fun text =>
    if String.eqb text hex_int_text then Returns hex_int
    else yaml_load sample_library text;
  yaml_dump := yaml_dump sample_library;
  xmltodict_parse := xmltodict_parse sample_library;
  xmltodict_unparse := xmltodict_unparse sample_library
|}.

(** The safe parse raises, whatever the class of the exception. *)
Definition safe_parse_raises (o : outcome pyval) : bool :=
  match o with
  | Raises _ => true
  | Returns _ => false
  end.

(** ** More of Python's [str] and [dict] *)

(** [s.count(c)] for a one-character [c]. *)
Fixpoint str_count (c : ascii) (s : string) : nat :=
  match s with
  | EmptyString => 0
  | String a t => (if Ascii.eqb a c then 1 else 0) + str_count c t
  end.

(** The characters of [s] that satisfy [p], in order. *)
Fixpoint str_filter (p : ascii -> bool) (s : string) : string :=
  match s with
  | EmptyString => EmptyString
  | String a t => if p a then String a (str_filter p t) else str_filter p t
  end.

(** The text without its whitespace. *)
Definition non_space (s : string) : string :=
  str_filter (fun c => negb (is_space c)) s.

(** [d.get(k)]: [None] when [k not in d]. *)
Fixpoint dict_get {V : Type} (d : list (string * V)) (k : string) : option V :=
  match d with
  | [] => None
  | (k', v) :: rest => if String.eqb k' k then Some v else dict_get rest k
  end.

(** The host on which a script runs: its files, by path, and the lines
    printed so far. *)
Record host : Type := mk_host {
  files : string -> option string;
  stdout : list string
}.

(** [print(line)] *)
Definition print (line : string) (h : host) : host :=
  mk_host (files h) (stdout h ++ [line])%list.

(** The file at [path] holds [text]; every other path is as it was. *)
Definition write_file (path text : string) (h : host) : host :=
  mk_host (fun q => if String.eqb q path then Some text else files h q)
          (stdout h).

(** The call [convert_data] makes for a supported target. *)
Definition writer_call (to_fmt : string) (v : pyval) : call :=
  if String.eqb to_fmt "xml" then CallXmlUnparse v
  else if String.eqb to_fmt "json" then CallJsonDumps v 2
  else CallYamlDump (clean_data_for_yaml v).

(** What the library of a supported target gives for [v]. *)
Definition writer_outcome (lib : library) (to_fmt : string) (v : pyval)
  : outcome string :=
  if String.eqb to_fmt "xml" then xmltodict_unparse lib v
  else if String.eqb to_fmt "json" then json_dumps lib v 2
  else yaml_dump lib (clean_data_for_yaml v).

(** The six directives [parse_mode] accepts. *)
Definition accepted_modes : list string :=
  ["xml2json"; "xml2yaml"; "json2xml"; "json2yaml"; "yaml2xml"; "yaml2json"].

(** ** write_output and the whole of sub_main

    The script on a host: the files it reads and writes and the lines it
    prints.  A file is given by its text: for the input file the text a
    read returns, for the output file the text handed to [f.write]. *)

Module Host.

(** The parsed command line: [output_file] is [None] when the argument
    is absent. *)
Record namespace : Type := mk_namespace {
  input_file : string;
  mode : string;
  output_file : option string
}.

Section Script.

Variable lib : library.

(** What opening a path for writing raises, if anything. *)
Variable open_w : string -> option exn.

(** What [f.write(text)] raises, if anything, and the part of the text
    that has reached the file by then. *)
Variable write_fault : string -> option (exn * string).

(** [if output_file:] holds for a path that is not empty.  Opening the
    file for writing empties it before [f.write] runs, so a write that
    fails leaves the file with what it wrote until then. *)
Definition write_output (output : string) (output_file : option string)
    (h : host) : outcome unit * host :=
  match output_file with
  | Some path =>
      if str_is_empty path then (Returns tt, print output h)
      else
        match open_w path with
        | Some e => (Raises e, h)
        | None =>
            match write_fault output with
            | Some (e, partial) => (Raises e, write_file path partial h)
            | None =>
                (Returns tt,
                 print ("Conversion complete. Output written to " +:+ path)
                       (write_file path output h))
            end
        end
  | None => (Returns tt, print output h)
  end.

(** [sub_main(args)]: the outcome, the host it leaves and the library
    calls it made. *)
Definition sub_main (args : namespace) (h : host)
  : outcome unit * host * list call :=
  match run (sub_main lib (files h) (input_file args) (mode args)) with
  | (Returns output, log) => (write_output output (output_file args) h, log)
  | (Raises e, log) => (Raises e, h, log)
  end.

End Script.

End Host.

(** ** update_pyproject_tools.py

    The merge of the tool tables of a template into a project file.  A
    TOML document is the list of its top-level keys; [tomlkit] and the
    exceptions of the interpreter enter as a record. *)

Module Pyproject.

(** A TOML item: a table, which has [items()] and takes [t[key] = value],
    or any other item, by its text. *)
#[warnings="-register-all"] Inductive item : Type :=
| Table (entries : list (string * item))
| Other (text : string).

Definition document : Type := list (string * item).

Record environment : Type := mk_environment {
  (** [tomlkit.load] on the text of a file *)
  toml_loads : string -> outcome document;
  (** [tomlkit.dump]: the text it writes *)
  toml_dumps : document -> outcome string;
  (** what [value.items()] raises on an item that is not a table *)
  items_error : item -> exn;
  (** what [value[key] = ...] raises on an item that is not a table *)
  setitem_error : item -> exn;
  (** what [open(path, "r")] raises when no file is at [path] *)
  open_r_error : string -> exn;
  (** what [open(path, "w")] raises, if anything *)
  open_w_error : string -> option exn
}.

Section Script.

Variable env : environment.

Definition load_toml (file_path : string) (h : host) : outcome document :=
  match files h file_path with
  | None => Raises (open_r_error env file_path)
  | Some text => toml_loads env text
  end.

(** Opening for writing empties the file before [tomlkit.dump] runs. *)
Definition save_toml (data : document) (file_path : string) (h : host)
  : outcome unit * host :=
  match open_w_error env file_path with
  | Some e => (Raises e, h)
  | None =>
      match toml_dumps env data with
      | Raises e => (Raises e, write_file file_path "" h)
      | Returns text => (Returns tt, write_file file_path text h)
      end
  end.

(** The loop of lines 51-53 on [tool], the item [project_config["tool"]].
    An assignment into a table is the assignment of a [dict]; what
    [tomlkit] does besides on the layout of tables (an inline table
    refuses a table, a key whose item becomes a table may move) is not
    part of this model. *)
Fixpoint copy_tools (entries : list (string * item)) (tool : item)
  : outcome item :=
  match entries with
  | [] => Returns tool
  | (key, value) :: rest =>
      if negb (String.eqb key "uv") then
        match tool with
        | Table t => copy_tools rest (Table (dict_setitem t key value))
        | Other _ => Raises (setitem_error env tool)
        end
      else copy_tools rest tool
  end.

(** Lines 47-53: the project document after the update. *)
Definition merge_tools (global_config project_config : document)
  : outcome document :=
  match dict_get global_config "tool" with
  | None => Returns project_config
  | Some global_tool =>
      let project_config :=
        match dict_get project_config "tool" with
        | None => dict_setitem project_config "tool" (Table [])
        | Some _ => project_config
        end in
      match global_tool with
      | Other _ => Raises (items_error env global_tool)
      | Table entries =>
          match dict_get project_config "tool" with
          | None => Returns project_config
          | Some tool =>
              match copy_tools entries tool with
              | Raises e => Raises e
              | Returns tool' =>
                  Returns (dict_setitem project_config "tool" tool')
              end
          end
      end
  end.

Definition update_pyproject_tools (global_pyproject_path
    project_pyproject_path : string) (h : host) : outcome unit * host :=
  match load_toml global_pyproject_path h with
  | Raises e => (Raises e, h)
  | Returns global_config =>
      match load_toml project_pyproject_path h with
      | Raises e => (Raises e, h)
      | Returns project_config =>
          match merge_tools global_config project_config with
          | Raises e => (Raises e, h)
          | Returns merged =>
              match save_toml merged project_pyproject_path h with
              | (Raises e, h') => (Raises e, h')
              | (Returns _, h') =>
                  (Returns tt,
                   print ("Updated " +:+ project_pyproject_path +:+
                          " with tool configurations from " +:+
                          global_pyproject_path) h')
              end
          end
      end
  end.

Definition usage : list string :=
  ["Usage: python update_pyproject_tools.py <global_pyproject.toml> <project_pyproject.toml>";
   "Example: python update_pyproject_tools.py global_env/pyproject.toml my_project/pyproject.toml"].

(** [main] on [sys.argv]: the host it leaves and the exit status, 0 when
    it returns.  The arguments are paths in the form [pathlib.Path]
    prints them in. *)
Definition main (argv : list string) (h : host) : host * nat :=
  match argv with
  | [_; global_path; project_path] =>
      match files h global_path with
      | None =>
          (print ("Error: Global pyproject.toml not found: " +:+ global_path) h, 1)
      | Some _ =>
          match files h project_path with
          | None =>
              (print ("Error: Project pyproject.toml not found: " +:+
                      project_path) h, 1)
          | Some _ =>
              match update_pyproject_tools global_path project_path h with
              | (Returns _, h') => (print "Update completed successfully!" h', 0)
              | (Raises e, h') =>
                  (print ("Error updating pyproject.toml: " +:+ exn_msg e) h', 1)
              end
          end
      end
  | _ => (fold_left (fun h line => print line h) usage h, 1)
  end.

End Script.

(** The table under [tool], when the document has one. *)
Definition tool_table (d : document) : option (list (string * item)) :=
  match dict_get d "tool" with
  | Some (Table t) => Some t
  | _ => None
  end.

End Pyproject.

(** ** Cycles in the store *)

(** [v] is the reference [l]. *)
Definition is_ref (v : Store.val) (l : Store.loc) : bool :=
  match v with
  | Store.VRef l' => Nat.eqb l' l
  | _ => false
  end.

(** The object has the reference [l] among its elements or values. *)
Definition object_holds (o : Store.object) (l : Store.loc) : bool :=
  match o with
  | Store.ODict items | Store.OOrderedDict items =>
      existsb (fun kv => is_ref (snd kv) l) items
  | Store.OList xs => existsb (fun x => is_ref x l) xs
  | Store.OOpaque _ => false
  end.

(** From the object at [l] one gets to the object at [l'] through one or
    more elements. *)
Inductive reaches (h : Store.heap) : Store.loc -> Store.loc -> Prop :=
| reaches_step (l l' : Store.loc) (o : Store.object) :
    h !! l = Some o -> object_holds o l' = true -> reaches h l l'
| reaches_more (l l' l'' : Store.loc) (o : Store.object) :
    h !! l = Some o -> object_holds o l' = true -> reaches h l' l'' ->
    reaches h l l''.

(** [d.get("tool", {}).get(k)] on a document whose [tool] is a table. *)
Definition tool_entry (d : Pyproject.document) (k : string)
  : option Pyproject.item :=
  match Pyproject.tool_table d with
  | Some t => dict_get t k
  | None => None
  end.

(** The tool table of the template, when it has one, has no key twice. *)
Definition tool_keys_unique (d : Pyproject.document) : bool :=
  match Pyproject.tool_table d with
  | Some t => keys_unique (map fst t)
  | None => true
  end.

(** Some entry of the table is copied: its key is not [uv]. *)
Definition has_copied_entry (entries : list (string * Pyproject.item)) : bool :=
  existsb (fun kv => negb (String.eqb (fst kv) "uv")) entries.

(** The table after the loop of lines 51-53. *)
Definition copied_into (entries t : list (string * Pyproject.item))
  : list (string * Pyproject.item) :=
  fold_left
    (fun t kv =>
       if negb (String.eqb (fst kv) "uv") then dict_setitem t (fst kv) (snd kv)
       else t)
    entries t.

(** A template, a project and an environment for the examples: the two
    documents stand for the files that hold the texts "template" and
    "project", and a document is written as the list of its keys. *)
Definition sample_template : Pyproject.document :=
  [("tool", Pyproject.Table
      [("ruff", Pyproject.Other "line-length = 88");
       ("uv", Pyproject.Other "managed = false")])].

Definition sample_project : Pyproject.document :=
  [("project", Pyproject.Table [("name", Pyproject.Other "demo")]);
   ("tool", Pyproject.Table
      [("uv", Pyproject.Other "managed = true");
       ("ruff", Pyproject.Other "line-length = 100");
       ("mypy", Pyproject.Other "strict = true")])].

Definition sample_merged : Pyproject.document :=
  [("project", Pyproject.Table [("name", Pyproject.Other "demo")]);
   ("tool", Pyproject.Table
      [("uv", Pyproject.Other "managed = true");
       ("ruff", Pyproject.Other "line-length = 88");
       ("mypy", Pyproject.Other "strict = true")])].

Definition sample_environment : Pyproject.environment := {|
  Pyproject.toml_loads := fun text =>
    if String.eqb text "template" then Returns sample_template
    else if String.eqb text "project" then Returns sample_project
    else not_in_sample;
  Pyproject.toml_dumps := fun d => Returns (join "," (map fst d));
  Pyproject.items_error := fun _ =>
    mk_exn (OtherException "AttributeError") "no attribute 'items'" None;
  Pyproject.setitem_error := fun _ =>
    mk_exn (OtherException "TypeError") "does not support item assignment" None;
  Pyproject.open_r_error := fun path =>
    mk_exn FileNotFoundError ("No such file or directory: " +:+ path) None;
  Pyproject.open_w_error := fun _ => None
|}.

Definition sample_host : host :=
  mk_host (fun path =>
             if String.eqb path "global.toml" then Some "template"
             else if String.eqb path "pyproject.toml" then Some "project"
             else None) [].

(* ================================================================== *)
(** * Strings *)

Section StringFacts.

Variable sep : ascii.
Local Abbreviation sep_str := (String sep EmptyString).

Lemma split_not_nil (s : string) : split sep s <> [].
Proof.
  induction s as [|c t IH]; simpl; [discriminate|].
  destruct (Ascii.eqb c sep); [discriminate|].
  destruct (split sep t); discriminate.
Qed.

Lemma join_cons2 (x y : string) (r : list string) :
  join sep_str (x :: y :: r) = x +:+ sep_str +:+ join sep_str (y :: r).
Proof. reflexivity. Qed.

Lemma append_String (c : ascii) (a b : string) :
  String c a +:+ b = String c (a +:+ b).
Proof. reflexivity. Qed.

Lemma join_split (s : string) : join sep_str (split sep s) = s.
Proof.
  induction s as [|c t IH]; [reflexivity|].
  simpl. destruct (Ascii.eqb_spec c sep) as [->|Hne].
  - destruct (split sep t) as [|w ws] eqn:E.
    + exfalso. eapply split_not_nil, E.
    + rewrite join_cons2, IH. reflexivity.
  - destruct (split sep t) as [|w ws] eqn:E.
    + exfalso. eapply split_not_nil, E.
    + destruct ws as [|w' ws'].
      * simpl in *. now rewrite IH.
      * rewrite join_cons2 in *. rewrite append_String, IH. reflexivity.
Qed.

Lemma split_no_sep (s : string) :
  Forall (fun l => str_contains sep l = false) (split sep s).
Proof.
  induction s as [|c t IH]; simpl.
  - repeat constructor.
  - destruct (Ascii.eqb_spec c sep) as [->|Hne].
    + constructor; [reflexivity | exact IH].
    + destruct (split sep t) as [|w ws]; [repeat constructor|].
      * simpl. destruct (Ascii.eqb_spec c sep); [contradiction | reflexivity].
      * inversion IH; subst. constructor; [|assumption].
        simpl. destruct (Ascii.eqb_spec c sep); [contradiction | assumption].
Qed.

Lemma split_app_no_sep (a rest : string) :
  str_contains sep a = false ->
  split sep (a +:+ sep_str +:+ rest) = a :: split sep rest.
Proof.
  induction a as [|c t IH]; simpl; intros H.
  - now rewrite Ascii.eqb_refl.
  - apply orb_false_iff in H as [Hc Ht]. rewrite Hc, (IH Ht). reflexivity.
Qed.

Lemma split_single (a : string) :
  str_contains sep a = false -> split sep a = [a].
Proof.
  induction a as [|c t IH]; simpl; intros H; [reflexivity|].
  apply orb_false_iff in H as [Hc Ht]. rewrite Hc, (IH Ht). reflexivity.
Qed.

Lemma split_join (ls : list string) :
  ls <> [] ->
  Forall (fun l => str_contains sep l = false) ls ->
  split sep (join sep_str ls) = ls.
Proof.
  induction ls as [|x r IH]; [congruence|]. intros _ H.
  inversion H as [|? ? Hx Hr]; subst.
  destruct r as [|y r'].
  - simpl. now apply split_single.
  - rewrite join_cons2, split_app_no_sep by assumption.
    f_equal. apply IH; [discriminate | assumption].
Qed.

End StringFacts.

Section StripFacts.

Variable p : ascii -> bool.

Lemma str_is_empty_true (s : string) : str_is_empty s = true -> s = "".
Proof. destruct s; [reflexivity | discriminate]. Qed.

Lemma rstrip_with_idem (s : string) :
  rstrip_with p (rstrip_with p s) = rstrip_with p s.
Proof.
  induction s as [|c t IH]; [reflexivity|]. simpl.
  destruct (str_is_empty (rstrip_with p t) && p c) eqn:E; [reflexivity|].
  simpl. rewrite IH, E. reflexivity.
Qed.

Lemma stripped_String (c : ascii) (t : string) :
  stripped p (String c t) ->
  stripped p t /\ str_is_empty t && p c = false.
Proof.
  unfold stripped. simpl.
  destruct (str_is_empty (rstrip_with p t) && p c) eqn:E; [discriminate|].
  intros H. injection H as H. rewrite H in E. split; assumption.
Qed.

Lemma rstrip_with_keeps_no (c : ascii) (s : string) :
  str_contains c s = false -> str_contains c (rstrip_with p s) = false.
Proof.
  induction s as [|a t IH]; [reflexivity|]. simpl. intros H.
  apply orb_false_iff in H as [Ha Ht].
  destruct (str_is_empty (rstrip_with p t) && p a); [reflexivity|].
  simpl. rewrite Ha. now apply IH.
Qed.

Lemma rstrip_with_empty_string : rstrip_with p "" = "".
Proof. reflexivity. Qed.

End StripFacts.

Lemma rstrip_nl_no_nl (s : string) :
  str_contains nl s = false -> stripped is_nl s.
Proof.
  unfold stripped. induction s as [|c t IH]; [reflexivity|]. simpl. intros H.
  apply orb_false_iff in H as [Hc Ht]. rewrite (IH Ht).
  unfold is_nl. rewrite Hc, andb_false_r. reflexivity.
Qed.

Section LineFacts.

Variable sep : ascii.
Local Abbreviation sep_str := (String sep EmptyString).

Lemma drop_trailing_empty_join (ls : list string) (y : string) (ys : list string) :
  drop_trailing_empty ls = y :: ys ->
  str_is_empty (join sep_str (y :: ys)) = false.
Proof.
  revert y ys. induction ls as [|x r IH]; simpl; [discriminate|].
  intros y ys. destruct (drop_trailing_empty r) as [|a b] eqn:E.
  - destruct x; simpl; [discriminate|]. intros [= <- <-]. reflexivity.
  - intros [= <- <-]. destruct x; reflexivity.
Qed.

Lemma drop_trailing_empty_Forall (P : string -> Prop) (ls : list string) :
  Forall P ls -> Forall P (drop_trailing_empty ls).
Proof.
  induction 1 as [|x r Hx Hr IH]; simpl; [constructor|].
  destruct (drop_trailing_empty r).
  - destruct (str_is_empty x); repeat constructor; assumption.
  - constructor; assumption.
Qed.

Lemma drop_trailing_empty_idem (ls : list string) :
  drop_trailing_empty (drop_trailing_empty ls) = drop_trailing_empty ls.
Proof.
  induction ls as [|x r IH]; [reflexivity|]. simpl.
  destruct (drop_trailing_empty r) as [|a b] eqn:E.
  - destruct (str_is_empty x) eqn:Ex; [reflexivity|]. simpl. now rewrite Ex.
  - change (drop_trailing_empty (x :: a :: b)) with
      (match drop_trailing_empty (a :: b) with
       | [] => if str_is_empty x then [] else [x]
       | rest' => x :: rest' end).
    rewrite IH. reflexivity.
Qed.

Lemma drop_trailing_empty_cons (x : string) (r : list string) :
  drop_trailing_empty (x :: r) =
  match drop_trailing_empty r with
  | [] => if str_is_empty x then [] else [x]
  | rest' => x :: rest'
  end.
Proof. reflexivity. Qed.

Lemma drop_trailing_empty_map (f : string -> string) (ls : list string) :
  f "" = "" ->
  drop_trailing_empty (map f (drop_trailing_empty ls)) =
  drop_trailing_empty (map f ls).
Proof.
  intros Hf. induction ls as [|x r IH]; [reflexivity|].
  rewrite (drop_trailing_empty_cons x r).
  change (map f (x :: r)) with (f x :: map f r).
  rewrite (drop_trailing_empty_cons (f x) (map f r)), <- IH.
  destruct (drop_trailing_empty r) as [|a b].
  - destruct (str_is_empty x) eqn:Ex; [|reflexivity].
    apply str_is_empty_true in Ex. subst x. simpl. now rewrite Hf.
  - change (map f (x :: a :: b)) with (f x :: map f (a :: b)).
    now rewrite drop_trailing_empty_cons.
Qed.

(** Stripping the characters of [p], the separator among them, from a
    text whose lines are stripped already removes the empty lines at the
    end and nothing else. *)
Lemma rstrip_with_lines (p : ascii -> bool) (s : string) :
  p sep = true ->
  Forall (stripped p) (split sep s) ->
  rstrip_with p s = join sep_str (drop_trailing_empty (split sep s)).
Proof.
  intros Hp. induction s as [|c t IH]; [reflexivity|].
  simpl split. destruct (Ascii.eqb_spec c sep) as [->|Hne]; intros H.
  - inversion H as [|? ? _ Ht]; subst. specialize (IH Ht).
    simpl. rewrite IH, Hp.
    destruct (drop_trailing_empty (split sep t)) as [|y ys] eqn:E.
    + reflexivity.
    + rewrite (drop_trailing_empty_join _ _ _ E). simpl andb. cbv iota.
      rewrite join_cons2. reflexivity.
  - destruct (split sep t) as [|hd tl] eqn:Es.
    { exfalso. eapply split_not_nil, Es. }
    inversion H as [|? ? Hhd Htl]; subst.
    apply stripped_String in Hhd as [Hhd Hc].
    assert (Hall : Forall (stripped p) (hd :: tl)) by (constructor; assumption).
    specialize (IH Hall).
    simpl rstrip_with. rewrite IH. simpl drop_trailing_empty.
    destruct (drop_trailing_empty tl) as [|y ys] eqn:E.
    + destruct hd as [|h hs]; simpl in *.
      * rewrite Hc. reflexivity.
      * reflexivity.
    + rewrite !join_cons2. destruct hd; reflexivity.
Qed.

End LineFacts.

Lemma split_join_drop (sep : ascii) (ls : list string) :
  Forall (fun l => str_contains sep l = false) ls ->
  split sep (join (String sep "") (drop_trailing_empty ls)) =
  lines_or_blank (drop_trailing_empty ls).
Proof.
  intros H. apply (drop_trailing_empty_Forall _ _) in H.
  destruct (drop_trailing_empty ls) as [|y ys]; [reflexivity|].
  apply split_join; [discriminate | assumption].
Qed.

Lemma is_space_nl : is_space nl = true.
Proof. reflexivity. Qed.

Lemma is_nl_nl : is_nl nl = true.
Proof. reflexivity. Qed.

Lemma split_stripped_nl (s : string) : Forall (stripped is_nl) (split nl s).
Proof.
  eapply Forall_impl; [apply split_no_sep|]. intros l; apply rstrip_nl_no_nl.
Qed.

Lemma rstrip_nl_lines (s : string) :
  rstrip_nl s = join nl_str (drop_trailing_empty (split nl s)).
Proof. apply rstrip_with_lines; [apply is_nl_nl | apply split_stripped_nl]. Qed.

Lemma map_rstrip_stripped (ls : list string) :
  Forall (stripped is_space) (map rstrip ls).
Proof.
  induction ls; simpl; constructor; [apply rstrip_with_idem | assumption].
Qed.

Lemma map_rstrip_no_nl (ls : list string) :
  Forall (fun l => str_contains nl l = false) ls ->
  Forall (fun l => str_contains nl l = false) (map rstrip ls).
Proof.
  induction 1; simpl; constructor; [now apply rstrip_with_keeps_no | assumption].
Qed.

Lemma map_stripped_id (ls : list string) :
  Forall (stripped is_space) ls -> map rstrip ls = ls.
Proof. induction 1 as [|x r Hx _ IH]; simpl; [reflexivity | now rewrite Hx, IH]. Qed.

Lemma lines_or_blank_no_nl (ls : list string) :
  Forall (fun l => str_contains nl l = false) ls ->
  Forall (fun l => str_contains nl l = false) (lines_or_blank ls).
Proof. destruct ls; simpl; [repeat constructor | trivial]. Qed.

Lemma lines_or_blank_not_nil (ls : list string) : lines_or_blank ls <> [].
Proof. destruct ls; discriminate. Qed.

Lemma drop_map_lines_or_blank (ls : list string) :
  drop_trailing_empty (map rstrip (lines_or_blank (drop_trailing_empty ls))) =
  drop_trailing_empty (map rstrip ls).
Proof.
  rewrite <- (drop_trailing_empty_map rstrip ls) by reflexivity.
  destruct (drop_trailing_empty ls); reflexivity.
Qed.

(** The [str] branch in one line: the lines of the text, each without its
    trailing whitespace, without the empty lines at the end, joined. *)
Lemma clean_str_lines (s : string) :
  clean_str s = join nl_str (drop_trailing_empty (map rstrip (split nl s))).
Proof.
  unfold clean_str. rewrite rstrip_nl_lines.
  unfold nl_str. rewrite split_join_drop by apply split_no_sep.
  set (M := map rstrip (lines_or_blank (drop_trailing_empty (split nl s)))).
  assert (HM : Forall (fun l => str_contains nl l = false) M).
  { apply map_rstrip_no_nl, lines_or_blank_no_nl, drop_trailing_empty_Forall,
      split_no_sep. }
  assert (HM0 : M <> []).
  { unfold M. intros E. apply map_eq_nil in E.
    eapply lines_or_blank_not_nil, E. }
  unfold rstrip at 1.
  rewrite (rstrip_with_lines nl is_space) by
    (try apply is_space_nl; rewrite split_join by assumption;
     apply map_rstrip_stripped).
  rewrite split_join by assumption.
  unfold M. now rewrite drop_map_lines_or_blank.
Qed.

Lemma clean_str_split (s : string) :
  split nl (clean_str s) =
  lines_or_blank (drop_trailing_empty (map rstrip (split nl s))).
Proof.
  rewrite clean_str_lines. unfold nl_str. apply split_join_drop.
  apply map_rstrip_no_nl, split_no_sep.
Qed.

Lemma clean_str_idem (s : string) : clean_str (clean_str s) = clean_str s.
Proof.
  rewrite (clean_str_lines (clean_str s)), clean_str_split.
  rewrite drop_map_lines_or_blank.
  rewrite (map_stripped_id (map rstrip (split nl s))) by apply map_rstrip_stripped.
  symmetry. apply clean_str_lines.
Qed.

Lemma clean_str_stripped (s : string) : stripped is_space (clean_str s).
Proof. unfold clean_str. apply rstrip_with_idem. Qed.

Lemma clean_str_lines_stripped (s : string) :
  Forall (stripped is_space) (split nl (clean_str s)).
Proof.
  rewrite clean_str_split.
  destruct (drop_trailing_empty (map rstrip (split nl s))) as [|y ys] eqn:E.
  - repeat constructor.
  - simpl. rewrite <- E. apply drop_trailing_empty_Forall, map_rstrip_stripped.
Qed.

Lemma clean_str_fixed (s : string) :
  clean_str s = s <->
  stripped is_space s /\ Forall (stripped is_space) (split nl s).
Proof.
  split.
  - intros E. rewrite <- E. split.
    + apply clean_str_stripped.
    + apply clean_str_lines_stripped.
  - intros [Hs Hl]. rewrite clean_str_lines, (map_stripped_id _ Hl).
    unfold nl_str. rewrite <- (rstrip_with_lines nl is_space s is_space_nl Hl).
    exact Hs.
Qed.

Lemma str_normalized_spec (s : string) :
  str_normalized s = true <-> clean_str s = s.
Proof.
  rewrite clean_str_fixed. unfold str_normalized, stripped.
  rewrite andb_true_iff, String.eqb_eq, forallb_forall, List.Forall_forall.
  split; intros [H1 H2]; (split; [exact H1|]); intros l Hl;
    specialize (H2 l Hl); [now apply String.eqb_eq | now apply String.eqb_eq].
Qed.

(* ================================================================== *)
(** * Dictionaries *)

Lemma str_in_In (x : string) (xs : list string) :
  str_in x xs = true <-> In x xs.
Proof.
  induction xs as [|y ys IH]; simpl; [split; [discriminate | tauto]|].
  rewrite orb_true_iff, IH, String.eqb_eq. split; intros [H|H]; auto.
Qed.

Lemma keys_unique_NoDup (ks : list string) :
  keys_unique ks = true <-> List.NoDup ks.
Proof.
  induction ks as [|k r IH]; simpl; [split; [constructor | reflexivity]|].
  rewrite andb_true_iff, negb_true_iff, IH, List.NoDup_cons_iff.
  rewrite <- str_in_In. destruct (str_in k r); intuition congruence.
Qed.

Section DictFacts.

Context {V : Type}.
Implicit Types (d acc : list (string * V)) (k : string) (v : V).

Local Abbreviation step :=
  (fun (d : list (string * V)) (kv : string * V) =>
     dict_setitem d (fst kv) (snd kv)).

Lemma dict_setitem_fresh d k v :
  ~ In k (map fst d) -> dict_setitem d k v = (d ++ [(k, v)])%list.
Proof.
  induction d as [|[k' v'] r IH]; simpl; intros H; [reflexivity|].
  destruct (String.eqb_spec k' k) as [->|Hne]; [tauto|].
  rewrite IH; [reflexivity | tauto].
Qed.

Lemma dict_setitem_In d k v (kv : string * V) :
  In kv (dict_setitem d k v) -> In kv d \/ kv = (k, v).
Proof.
  induction d as [|[k' v'] r IH]; simpl.
  - intros [<-|[]]. now right.
  - destruct (String.eqb_spec k' k) as [->|Hne]; simpl.
    + intros [<-|H]; auto.
    + intros [<-|H]; auto. destruct (IH H); auto.
Qed.

Lemma dict_setitem_key_In d k v (x : string) :
  In x (map fst (dict_setitem d k v)) -> In x (map fst d) \/ x = k.
Proof.
  rewrite !List.in_map_iff. intros [kv [<- H]].
  apply dict_setitem_In in H as [H| ->]; [left; eauto | now right].
Qed.

Lemma dict_setitem_NoDup d k v :
  List.NoDup (map fst d) -> List.NoDup (map fst (dict_setitem d k v)).
Proof.
  induction d as [|[k' v'] r IH]; simpl; intros H.
  - constructor; [tauto | constructor].
  - apply List.NoDup_cons_iff in H as [Hk Hr].
    destruct (String.eqb_spec k' k) as [->|Hne]; simpl.
    + now constructor.
    + constructor; [|now apply IH].
      intros Hin. apply dict_setitem_key_In in Hin as [Hin| ->]; tauto.
Qed.

Lemma fold_setitem_NoDup (ps : list (string * V)) acc :
  List.NoDup (map fst acc) -> List.NoDup (map fst (fold_left step ps acc)).
Proof.
  revert acc. induction ps as [|[k v] r IH]; simpl; intros acc H; [exact H|].
  apply IH, dict_setitem_NoDup, H.
Qed.

Lemma fold_setitem_In (ps : list (string * V)) acc (kv : string * V) :
  In kv (fold_left step ps acc) -> In kv acc \/ In kv ps.
Proof.
  revert acc. induction ps as [|[k v] r IH]; simpl; intros acc H; [tauto|].
  apply IH in H as [H|H]; [|tauto].
  apply dict_setitem_In in H as [H| ->]; tauto.
Qed.

Lemma fold_setitem_fresh (ps : list (string * V)) acc :
  List.NoDup (map fst (acc ++ ps)) -> fold_left step ps acc = (acc ++ ps)%list.
Proof.
  revert acc. induction ps as [|[k v] r IH]; simpl; intros acc H.
  - now rewrite List.app_nil_r.
  - assert (Hk : ~ In k (map fst acc)).
    { rewrite List.map_app in H. simpl in H.
      apply List.NoDup_remove_2 in H. rewrite List.in_app_iff in H. tauto. }
    rewrite (dict_setitem_fresh _ _ _ Hk), IH.
    + now rewrite <- List.app_assoc.
    + now rewrite <- List.app_assoc.
Qed.

Lemma dict_from_pairs_NoDup (ps : list (string * V)) :
  List.NoDup (map fst (dict_from_pairs ps)).
Proof. apply fold_setitem_NoDup. constructor. Qed.

Lemma dict_from_pairs_In (ps : list (string * V)) (kv : string * V) :
  In kv (dict_from_pairs ps) -> In kv ps.
Proof. intros H. apply fold_setitem_In in H as [[]|H]. exact H. Qed.

(** Distinct keys: the comprehension keeps every pair, in order. *)
Lemma dict_from_pairs_unique (ps : list (string * V)) :
  List.NoDup (map fst ps) -> dict_from_pairs ps = ps.
Proof. intros H. unfold dict_from_pairs. now rewrite fold_setitem_fresh. Qed.

Lemma dict_from_pairs_idem (ps : list (string * V)) :
  dict_from_pairs (dict_from_pairs ps) = dict_from_pairs ps.
Proof. apply dict_from_pairs_unique, dict_from_pairs_NoDup. Qed.

End DictFacts.

(* ================================================================== *)
(** * Values *)

(** Induction on values, with the hypothesis available for every element
    of a list and for every value of a mapping. *)
Lemma pyval_ind_nested (P : pyval -> Prop) :
  P PNone ->
  (forall b, P (PBool b)) ->
  (forall z, P (PInt z)) ->
  (forall bits, P (PFloat bits)) ->
  (forall s, P (PStr s)) ->
  (forall xs, Forall P xs -> P (PList xs)) ->
  (forall items, Forall (fun kv => P (snd kv)) items -> P (PDict items)) ->
  (forall items, Forall (fun kv => P (snd kv)) items -> P (POrderedDict items)) ->
  (forall tag, P (POpaque tag)) ->
  forall v, P v.
Proof.
  intros HN HB HI HF HS HL HD HO HQ.
  fix IH 1. intros [|b|z|bits|s|xs|items|items|tag].
  - exact HN.
  - apply HB.
  - apply HI.
  - apply HF.
  - apply HS.
  - apply HL. induction xs as [|x r IHr]; constructor; [apply IH | exact IHr].
  - apply HD. induction items as [|[k x] r IHr]; constructor;
      [apply IH | exact IHr].
  - apply HO. induction items as [|[k x] r IHr]; constructor;
      [apply IH | exact IHr].
  - apply HQ.
Qed.

Lemma clean_dict (items : list (string * pyval)) :
  clean_data_for_yaml (PDict items) =
  PDict (dict_from_pairs (map clean_item items)).
Proof.
  simpl. do 2 f_equal. apply List.map_ext. intros [k x]. reflexivity.
Qed.

Lemma clean_ordered_dict (items : list (string * pyval)) :
  clean_data_for_yaml (POrderedDict items) =
  PDict (dict_from_pairs (map clean_item items)).
Proof.
  simpl. do 2 f_equal. apply List.map_ext. intros [k x]. reflexivity.
Qed.

Lemma map_fixed {A : Type} (f : A -> A) (l : list A) :
  map f l = l <-> Forall (fun x => f x = x) l.
Proof.
  induction l as [|a r IH]; simpl.
  - split; [constructor | reflexivity].
  - split.
    + intros [= Ha Hr]. constructor; [exact Ha | now apply IH].
    + intros H. inversion H; subst. f_equal; [assumption | now apply IH].
Qed.

Lemma clean_items_idem (items : list (string * pyval)) :
  Forall (fun kv => clean_data_for_yaml (clean_data_for_yaml (snd kv)) =
                    clean_data_for_yaml (snd kv)) items ->
  map clean_item (dict_from_pairs (map clean_item items)) =
  dict_from_pairs (map clean_item items).
Proof.
  intros H. apply map_fixed, List.Forall_forall. intros kv Hin.
  apply dict_from_pairs_In, List.in_map_iff in Hin as [kv0 [<- Hin0]].
  rewrite List.Forall_forall in H. specialize (H kv0 Hin0).
  unfold clean_item. simpl. now rewrite H.
Qed.

Lemma clean_data_for_yaml_idem (v : pyval) :
  clean_data_for_yaml (clean_data_for_yaml v) = clean_data_for_yaml v.
Proof.
  induction v as [| | | | s | xs IH | items IH | items IH | ] using pyval_ind_nested;
    try reflexivity.
  - simpl. now rewrite clean_str_idem.
  - simpl. f_equal. rewrite List.map_map. apply List.map_ext_Forall. exact IH.
  - rewrite clean_dict, clean_dict, (clean_items_idem _ IH).
    now rewrite dict_from_pairs_idem.
  - rewrite clean_ordered_dict, clean_dict, (clean_items_idem _ IH).
    now rewrite dict_from_pairs_idem.
Qed.

Lemma existsb_false_Forall {A : Type} (f : A -> bool) (l : list A) :
  Forall (fun x => f x = false) l -> existsb f l = false.
Proof. induction 1 as [|x r Hx _ IH]; simpl; [reflexivity | now rewrite Hx, IH]. Qed.

Lemma clean_items_no_ordered (items : list (string * pyval)) :
  Forall (fun kv => has_ordered (clean_data_for_yaml (snd kv)) = false) items ->
  existsb (fun kv => has_ordered (snd kv))
    (dict_from_pairs (map clean_item items)) = false.
Proof.
  intros H. apply existsb_false_Forall, List.Forall_forall. intros kv Hin.
  apply dict_from_pairs_In, List.in_map_iff in Hin as [kv0 [<- Hin0]].
  rewrite List.Forall_forall in H. exact (H kv0 Hin0).
Qed.

(** No ordered map is left in the result. *)
Lemma clean_data_for_yaml_plain (v : pyval) :
  has_ordered (clean_data_for_yaml v) = false.
Proof.
  induction v as [| | | | s | xs IH | items IH | items IH | ] using pyval_ind_nested;
    try reflexivity.
  - simpl. apply existsb_false_Forall. rewrite List.Forall_map. exact IH.
  - rewrite clean_dict. simpl. now apply clean_items_no_ordered.
  - rewrite clean_ordered_dict. simpl. now apply clean_items_no_ordered.
Qed.

Lemma map_fst_clean_item (items : list (string * pyval)) :
  map fst (map clean_item items) = map fst items.
Proof. rewrite List.map_map. reflexivity. Qed.

(** On a mapping without a repeated key the comprehension is a [map]. *)
Lemma clean_items_unique (items : list (string * pyval)) :
  keys_unique (map fst items) = true ->
  dict_from_pairs (map clean_item items) = map clean_item items.
Proof.
  intros H. apply dict_from_pairs_unique. rewrite map_fst_clean_item.
  now apply keys_unique_NoDup.
Qed.

(** The pass keeps the nesting and, in every mapping, the keys and their
    order. *)
Lemma clean_data_for_yaml_skeleton (v : pyval) :
  well_formed v = true ->
  skeleton_of (clean_data_for_yaml v) = skeleton_of v.
Proof.
  induction v as [| | | | s | xs IH | items IH | items IH | ] using pyval_ind_nested;
    try reflexivity; intros Hwf; simpl in Hwf.
  - simpl. f_equal. rewrite List.map_map. apply List.map_ext_Forall.
    rewrite forallb_forall in Hwf. rewrite List.Forall_forall in *.
    intros x Hx. apply IH; [exact Hx | now apply Hwf].
  - apply andb_true_iff in Hwf as [Hk Hv].
    rewrite clean_dict, (clean_items_unique _ Hk). simpl. f_equal.
    rewrite List.map_map. apply List.map_ext_Forall.
    rewrite forallb_forall in Hv. rewrite List.Forall_forall in *.
    intros kv Hin. simpl. f_equal. apply IH; [exact Hin | now apply Hv].
  - apply andb_true_iff in Hwf as [Hk Hv].
    rewrite clean_ordered_dict, (clean_items_unique _ Hk). simpl. f_equal.
    rewrite List.map_map. apply List.map_ext_Forall.
    rewrite forallb_forall in Hv. rewrite List.Forall_forall in *.
    intros kv Hin. simpl. f_equal. apply IH; [exact Hin | now apply Hv].
Qed.

Lemma canonical_well_formed (v : pyval) :
  canonical v = true -> well_formed v = true.
Proof.
  induction v as [| | | | s | xs IH | items IH | items IH | ] using pyval_ind_nested;
    try reflexivity; try discriminate; simpl; intros H.
  - rewrite forallb_forall in *. rewrite List.Forall_forall in IH. auto.
  - apply andb_true_iff in H as [Hk Hv]. rewrite Hk. simpl.
    rewrite forallb_forall in *. rewrite List.Forall_forall in IH. auto.
Qed.

(** On a Canonical Value the pass changes nothing exactly when every
    string is normalized. *)
Lemma clean_data_for_yaml_fixed (v : pyval) :
  canonical v = true ->
  (clean_data_for_yaml v = v <-> normalized v = true).
Proof.
  induction v as [| | | | s | xs IH | items IH | items IH | ] using pyval_ind_nested;
    try (intros _; split; reflexivity); try discriminate; simpl; intros Hc.
  - rewrite str_normalized_spec. split; [now intros [= H] | now intros ->].
  - rewrite forallb_forall in Hc. rewrite List.Forall_forall in IH.
    rewrite forallb_forall. split.
    + intros [= H]. apply map_fixed in H. rewrite List.Forall_forall in H.
      intros x Hx. apply IH; auto.
    + intros H. f_equal. apply map_fixed, List.Forall_forall.
      intros x Hx. apply IH; auto.
  - apply andb_true_iff in Hc as [Hk Hv].
    rewrite forallb_forall in Hv. rewrite List.Forall_forall in IH.
    rewrite forallb_forall.
    assert (E : map (fun '(key, value) => (key, clean_data_for_yaml value)) items
                = map clean_item items).
    { apply List.map_ext. now intros [k x]. }
    rewrite E, (clean_items_unique _ Hk). split.
    + intros [= H]. apply map_fixed in H. rewrite List.Forall_forall in H.
      intros kv Hin. apply IH; auto. specialize (H kv Hin).
      unfold clean_item in H. destruct kv as [k x]. simpl in *. congruence.
    + intros H. f_equal. apply map_fixed, List.Forall_forall.
      intros [k x] Hin. unfold clean_item. simpl. f_equal.
      apply (IH (k, x)); auto.
Qed.

(* ================================================================== *)
(** * The store *)

Section DictRelated.

Context {V W : Type} (R : V -> W -> Prop).

Local Abbreviation related := (items_related R).

Lemma dict_setitem_related d e k v w :
  Forall2 related d e -> R v w ->
  Forall2 related (dict_setitem d k v) (dict_setitem e k w).
Proof.
  intros H Hvw. induction H as [|[k1 v1] [k2 w1] d e [Hk Hr] Hde IH]; simpl.
  - repeat constructor; assumption.
  - simpl in Hk. subst k2. destruct (String.eqb k1 k).
    + constructor; [split; [reflexivity | exact Hvw] | exact Hde].
    + constructor; [split; [reflexivity | exact Hr] | exact IH].
Qed.

Lemma fold_setitem_related ps qs :
  Forall2 related ps qs ->
  forall acc1 acc2,
    Forall2 related acc1 acc2 ->
    Forall2 related
      (fold_left (fun d kv => dict_setitem d (fst kv) (snd kv)) ps acc1)
      (fold_left (fun d kv => dict_setitem d (fst kv) (snd kv)) qs acc2).
Proof.
  induction 1 as [|[k1 v] [k2 w] ps qs [Hk Hr] _ IH]; intros acc1 acc2 Hacc;
    simpl; [exact Hacc|].
  simpl in Hk. subst k2. apply IH. now apply dict_setitem_related.
Qed.

Lemma dict_from_pairs_related ps qs :
  Forall2 related ps qs ->
  Forall2 related (dict_from_pairs ps) (dict_from_pairs qs).
Proof. intros H. apply fold_setitem_related; [exact H | constructor]. Qed.

End DictRelated.

Section StoreFacts.

Import Store.

Lemma mapM_weaken {A B : Type} (f g : A -> option B) (l : list A) (k : list B) :
  (forall x y, f x = Some y -> g x = Some y) ->
  mapM f l = Some k -> mapM g l = Some k.
Proof.
  intros Hfg. rewrite !mapM_Some. intros H.
  eapply Forall2_impl; [exact H | exact Hfg].
Qed.

Lemma decode_item_Some (dec : val -> option pyval) (p : string * val)
    (q : string * pyval) :
  decode_item dec p = Some q <-> items_related (fun v t => dec v = Some t) p q.
Proof.
  unfold decode_item, items_related. destruct p as [k v], q as [k' t]. simpl.
  destruct (dec v) as [t0|]; simpl; split.
  - intros [= <- <-]. auto.
  - intros [<- [= <-]]. reflexivity.
  - discriminate.
  - intros [_ H]. discriminate.
Qed.

Lemma map_in_prefix {A B : Type} (f : heap -> A -> option (heap * B)) :
  (forall h x h' y, f h x = Some (h', y) -> h `prefix_of` h') ->
  forall xs h h' ys, map_in f h xs = Some (h', ys) -> h `prefix_of` h'.
Proof.
  intros Hf. induction xs as [|x r IH]; simpl; intros h h' ys H.
  - injection H as <- <-. reflexivity.
  - destruct (f h x) as [[h1 y]|] eqn:E1; simpl in H; [|discriminate].
    destruct (map_in f h1 r) as [[h2 ys']|] eqn:E2; simpl in H; [|discriminate].
    injection H as <- <-.
    transitivity h1; [eapply Hf; exact E1 | eapply IH; exact E2].
Qed.

Lemma on_value_prefix (f : heap -> val -> option (heap * val)) :
  (forall h x h' y, f h x = Some (h', y) -> h `prefix_of` h') ->
  forall h kv h' kv', on_value f h kv = Some (h', kv') -> h `prefix_of` h'.
Proof.
  intros Hf h kv h' kv'. unfold on_value.
  destruct (f h (snd kv)) as [[h1 y]|] eqn:E; simpl; [|discriminate].
  intros [= <- <-]. eauto.
Qed.

(** Whatever the store holds, cyclic or shared, a run that returns has
    added objects at new addresses and changed none. *)
Lemma clean_in_prefix (depth : nat) :
  forall h v h' v',
    clean_data_for_yaml_in depth h v = Some (h', v') -> h `prefix_of` h'.
Proof.
  induction depth as [|d IH]; intros h v h' v' H; [discriminate|].
  simpl in H. destruct v as [| | | | |l]; try (injection H as <- <-; reflexivity).
  destruct (h !! l) as [[items|items|xs|tag]|] eqn:El; try discriminate.
  - destruct (map_in _ h items) as [[h1 items']|] eqn:E; simpl in H; [|discriminate].
    injection H as <- <-. transitivity h1; [|apply prefix_app_r; reflexivity].
    eapply map_in_prefix; [|exact E]. apply on_value_prefix, IH.
  - destruct (map_in _ h items) as [[h1 items']|] eqn:E; simpl in H; [|discriminate].
    injection H as <- <-. transitivity h1; [|apply prefix_app_r; reflexivity].
    eapply map_in_prefix; [|exact E]. apply on_value_prefix, IH.
  - destruct (map_in _ h xs) as [[h1 ys]|] eqn:E; simpl in H; [|discriminate].
    injection H as <- <-. transitivity h1; [|apply prefix_app_r; reflexivity].
    eapply map_in_prefix; [|exact E]. apply IH.
  - injection H as <- <-. reflexivity.
Qed.

(** A value read through a store reads the same through a larger one. *)
Lemma decode_mono (n : nat) :
  forall (h h' : heap) (v : val) (t : pyval),
    h `prefix_of` h' -> decode n h v = Some t -> decode n h' v = Some t.
Proof.
  induction n as [|n IH]; intros h h' v t Hp H;
    destruct v as [| | | | |l]; simpl in *; try assumption; try discriminate.
  destruct (h !! l) as [o|] eqn:El; [|discriminate].
  assert (El' : h' !! l = Some o) by (eapply prefix_lookup_Some; eassumption).
  rewrite El'.
  destruct o as [items|items|xs|tag]; try assumption.
  - destruct (mapM _ items) as [ts|] eqn:E; [|discriminate].
    erewrite mapM_weaken; [exact H | | exact E].
    intros p q. rewrite !decode_item_Some. unfold items_related.
    intros [? ?]; eauto.
  - destruct (mapM _ items) as [ts|] eqn:E; [|discriminate].
    erewrite mapM_weaken; [exact H | | exact E].
    intros p q. rewrite !decode_item_Some. unfold items_related.
    intros [? ?]; eauto.
  - destruct (mapM _ xs) as [ts|] eqn:E; [|discriminate].
    erewrite mapM_weaken; [exact H | | exact E]. eauto.
Qed.

Lemma map_in_refines {A B T U : Type}
    (f : heap -> A -> option (heap * B))
    (dec_in : heap -> A -> option T) (dec_out : heap -> B -> option U)
    (c : T -> U) :
  (forall (h h' : heap) a t,
      h `prefix_of` h' -> dec_in h a = Some t -> dec_in h' a = Some t) ->
  (forall (h h' : heap) b u,
      h `prefix_of` h' -> dec_out h b = Some u -> dec_out h' b = Some u) ->
  (forall (h : heap) a t,
      dec_in h a = Some t ->
      exists h' b, f h a = Some (h', b) /\ h `prefix_of` h' /\
                   dec_out h' b = Some (c t)) ->
  forall xs (h : heap) ts,
    Forall2 (fun x t => dec_in h x = Some t) xs ts ->
    exists h' ys, map_in f h xs = Some (h', ys) /\ h `prefix_of` h' /\
                  Forall2 (fun y u => dec_out h' y = Some u) ys (map c ts).
Proof.
  intros Hin Hout Hf. induction xs as [|x r IH]; intros h ts H.
  - inversion H; subst. exists h, []. simpl.
    split; [reflexivity|]. split; [reflexivity | constructor].
  - inversion H as [|? t ? ts' Hx Hr]; subst.
    destruct (Hf h x t Hx) as (h1 & y & Ef & Hp1 & Hy).
    assert (Hr1 : Forall2 (fun x t => dec_in h1 x = Some t) r ts').
    { eapply Forall2_impl; [exact Hr|]. intros a u Ha. eapply Hin; eauto. }
    destruct (IH h1 ts' Hr1) as (h2 & ys & Em & Hp2 & Hys).
    exists h2, (y :: ys). simpl. rewrite Ef. simpl. rewrite Em. simpl.
    split; [reflexivity|]. split; [transitivity h1; assumption|].
    constructor; [eapply Hout; eauto | exact Hys].
Qed.

Lemma decode_item_mono (n : nat) (h h' : heap) (kv : string * val)
    (kt : string * pyval) :
  h `prefix_of` h' ->
  decode_item (decode n h) kv = Some kt ->
  decode_item (decode n h') kv = Some kt.
Proof.
  intros Hp. rewrite !decode_item_Some. unfold items_related.
  intros [Hk Hv]. split; [exact Hk|]. eapply decode_mono; eauto.
Qed.

Lemma alloc_lookup (h : heap) (o : object) :
  (h ++ [o])%list !! length h = Some o.
Proof. now apply list_lookup_middle. Qed.

(** The items of the new mapping stand for the items the function on
    values builds. *)
Lemma decode_dict_from_pairs (n : nat) (h : heap)
    (items : list (string * val)) (titems : list (string * pyval)) :
  Forall2 (fun y u => decode_item (decode n h) y = Some u) items titems ->
  mapM (decode_item (decode n h)) (dict_from_pairs items) =
  Some (dict_from_pairs titems).
Proof.
  intros H. apply mapM_Some.
  eapply Forall2_impl; [apply (dict_from_pairs_related
                                 (fun v t => decode n h v = Some t))|].
  - eapply Forall2_impl; [exact H|]. intros p q. now rewrite decode_item_Some.
  - intros p q. now rewrite decode_item_Some.
Qed.

Lemma clean_in_ref (d : nat) (h : heap) (l : loc) :
  clean_data_for_yaml_in (S d) h (VRef l) =
  match h !! l with
  | Some (ODict items) | Some (OOrderedDict items) =>
      '(h', items') ← map_in (on_value (clean_data_for_yaml_in d)) h items;
      Some (alloc h' (ODict (dict_from_pairs items')))
  | Some (OList xs) =>
      '(h', ys) ← map_in (clean_data_for_yaml_in d) h xs;
      Some (alloc h' (OList ys))
  | Some (OOpaque _) => Some (h, VRef l)
  | None => None
  end.
Proof. reflexivity. Qed.

(** On a store value that stands for [t], a run of depth one more than
    the nesting returns, and what it returns stands for
    [clean_data_for_yaml t]. *)
Lemma clean_in_refines (n : nat) :
  forall (h : heap) (v : val) (t : pyval),
    decode n h v = Some t ->
    exists h' v',
      clean_data_for_yaml_in (S n) h v = Some (h', v') /\
      h `prefix_of` h' /\
      decode n h' v' = Some (clean_data_for_yaml t).
Proof.
  induction n as [|d IH]; intros h v t H.
  - destruct v as [| | | |s|l]; simpl in H; try discriminate;
      injection H as <-; eexists h, _; (split; [reflexivity|]);
      (split; reflexivity).
  - destruct v as [| | | |s|l];
      try (simpl in H; injection H as <-; eexists h, _;
           (split; [reflexivity|]); (split; reflexivity)).
    cbn [decode] in H. rewrite clean_in_ref.
    destruct (h !! l) as [[items|items|xs|tag]|] eqn:El; try discriminate.
    + destruct (mapM _ items) as [titems|] eqn:E; [|discriminate].
      injection H as <-. apply mapM_Some in E.
      destruct (map_in_refines (on_value (clean_data_for_yaml_in (S d)))
                  (fun h => decode_item (decode d h))
                  (fun h => decode_item (decode d h)) clean_item)
        with (xs := items) (h := h) (ts := titems)
        as (h1 & items' & Em & Hp & Hit); try exact E.
      * intros; eapply decode_item_mono; eauto.
      * intros; eapply decode_item_mono; eauto.
      * intros h0 [k x] [k' tx]. rewrite decode_item_Some.
        unfold items_related. cbn [fst snd]. intros [<- Hx].
        destruct (IH h0 x tx Hx) as (h2 & y & Ec & Hp2 & Hy).
        exists h2, (k, y).
        split; [unfold on_value; cbn [fst snd]; rewrite Ec; reflexivity|].
        split; [exact Hp2|].
        apply decode_item_Some. split; [reflexivity | exact Hy].
      * rewrite Em. eexists _, _. split; [reflexivity|].
        split; [transitivity h1; [exact Hp | apply prefix_app_r; reflexivity]|].
        cbn [decode]. rewrite alloc_lookup, clean_dict.
        erewrite decode_dict_from_pairs; [reflexivity|].
        eapply Forall2_impl; [exact Hit|]. intros p q.
        apply decode_item_mono, prefix_app_r. reflexivity.
    + destruct (mapM _ items) as [titems|] eqn:E; [|discriminate].
      injection H as <-. apply mapM_Some in E.
      destruct (map_in_refines (on_value (clean_data_for_yaml_in (S d)))
                  (fun h => decode_item (decode d h))
                  (fun h => decode_item (decode d h)) clean_item)
        with (xs := items) (h := h) (ts := titems)
        as (h1 & items' & Em & Hp & Hit); try exact E.
      * intros; eapply decode_item_mono; eauto.
      * intros; eapply decode_item_mono; eauto.
      * intros h0 [k x] [k' tx]. rewrite decode_item_Some.
        unfold items_related. cbn [fst snd]. intros [<- Hx].
        destruct (IH h0 x tx Hx) as (h2 & y & Ec & Hp2 & Hy).
        exists h2, (k, y).
        split; [unfold on_value; cbn [fst snd]; rewrite Ec; reflexivity|].
        split; [exact Hp2|].
        apply decode_item_Some. split; [reflexivity | exact Hy].
      * rewrite Em. eexists _, _. split; [reflexivity|].
        split; [transitivity h1; [exact Hp | apply prefix_app_r; reflexivity]|].
        cbn [decode]. rewrite alloc_lookup, clean_ordered_dict.
        erewrite decode_dict_from_pairs; [reflexivity|].
        eapply Forall2_impl; [exact Hit|]. intros p q.
        apply decode_item_mono, prefix_app_r. reflexivity.
    + destruct (mapM _ xs) as [ts|] eqn:E; [|discriminate].
      injection H as <-. apply mapM_Some in E.
      destruct (map_in_refines (clean_data_for_yaml_in (S d))
                  (decode d) (decode d) clean_data_for_yaml)
        with (xs := xs) (h := h) (ts := ts)
        as (h1 & ys & Em & Hp & Hys); try exact E.
      * intros; eapply decode_mono; eauto.
      * intros; eapply decode_mono; eauto.
      * intros h0 x tx Hx. destruct (IH h0 x tx Hx) as (h2 & y & Ec & Hp2 & Hy).
        eauto.
      * rewrite Em. eexists _, _. split; [reflexivity|].
        split; [transitivity h1; [exact Hp | apply prefix_app_r; reflexivity]|].
        cbn [decode]. rewrite alloc_lookup.
        assert (Hm : mapM (decode d (h1 ++ [OList ys])%list) ys =
                     Some (map clean_data_for_yaml ts)).
        { apply mapM_Some. eapply Forall2_impl; [exact Hys|]. intros y u.
          apply decode_mono, prefix_app_r. reflexivity. }
        rewrite Hm. reflexivity.
    + injection H as <-. exists h, (VRef l). split; [reflexivity|].
      split; [reflexivity|]. cbn [decode]. rewrite El. reflexivity.
Qed.

(** A [dict] or a [list] comes back as an object that did not exist. *)
Lemma clean_in_fresh (depth : nat) (h h' : heap) (v v' : val) :
  is_container h v = true ->
  clean_data_for_yaml_in depth h v = Some (h', v') ->
  is_fresh h v' = true.
Proof.
  destruct depth as [|d]; [discriminate|].
  destruct v as [| | | | |l]; try discriminate. simpl.
  destruct (h !! l) as [[items|items|xs|tag]|] eqn:El; try discriminate;
    intros _ H.
  - destruct (map_in _ h items) as [[h1 items']|] eqn:E; simpl in H; [|discriminate].
    injection H as <- <-. simpl. apply Nat.leb_le, prefix_length.
    eapply map_in_prefix; [|exact E]. apply on_value_prefix, clean_in_prefix.
  - destruct (map_in _ h items) as [[h1 items']|] eqn:E; simpl in H; [|discriminate].
    injection H as <- <-. simpl. apply Nat.leb_le, prefix_length.
    eapply map_in_prefix; [|exact E]. apply on_value_prefix, clean_in_prefix.
  - destruct (map_in _ h xs) as [[h1 ys]|] eqn:E; simpl in H; [|discriminate].
    injection H as <- <-. simpl. apply Nat.leb_le, prefix_length.
    eapply map_in_prefix; [|exact E]. apply clean_in_prefix.
Qed.

End StoreFacts.

(* ================================================================== *)
(** * The mode resolver *)

Lemma split_two_contains (sep : ascii) (mode a b : string) :
  split sep mode = [a; b] -> str_contains sep mode = true.
Proof.
  induction mode as [|c t IH] in a |- *; simpl; [intros [=]|].
  destruct (Ascii.eqb c sep); [reflexivity|]. simpl.
  destruct (split sep t) as [|w ws] eqn:E; [intros [=]|].
  intros [= <- ->]. eapply IH. reflexivity.
Qed.

(** With exactly one separator the checks run in the order source
    membership, target membership, identity. *)
Lemma parse_mode_two_parts (mode a b : string) :
  split MODE_SEPARATOR mode = [a; b] ->
  parse_mode mode =
  if negb (str_in a supported_formats) then Raises (value_error (msg_source a))
  else if negb (str_in b supported_formats) then Raises (value_error (msg_target b))
  else if String.eqb a b then Raises (value_error (msg_same a))
  else Returns (a, b).
Proof.
  intros H. unfold parse_mode.
  rewrite (split_two_contains _ _ _ _ H), H. reflexivity.
Qed.

Lemma parse_mode_Returns_split (mode a b : string) :
  parse_mode mode = Returns (a, b) -> split MODE_SEPARATOR mode = [a; b].
Proof.
  unfold parse_mode.
  destruct (negb (str_contains MODE_SEPARATOR mode)); [intros H; discriminate H|].
  destruct (split MODE_SEPARATOR mode) as [|x [|y [|z r]]];
    unfold EXPECTED_PARTS; cbn [length Nat.eqb negb];
    try (intros H; discriminate H).
  destruct (negb (str_in x supported_formats)); [intros H; discriminate H|].
  destruct (negb (str_in y supported_formats)); [intros H; discriminate H|].
  destruct (String.eqb x y); [intros H; discriminate H|].
  now intros [= <- <-].
Qed.

Lemma parse_mode_Returns (mode a b : string) :
  parse_mode mode = Returns (a, b) <->
  In a supported_formats /\ In b supported_formats /\ a <> b /\
  mode = a +:+ String MODE_SEPARATOR b.
Proof.
  split.
  - intros H. pose proof (parse_mode_Returns_split _ _ _ H) as Hs.
    rewrite (parse_mode_two_parts _ _ _ Hs) in H.
    destruct (str_in a supported_formats) eqn:Ha; [|discriminate].
    destruct (str_in b supported_formats) eqn:Hb; [|discriminate].
    destruct (String.eqb_spec a b) as [|Hab]; [discriminate|]. simpl in H.
    apply str_in_In in Ha, Hb. repeat split; try assumption.
    rewrite <- (join_split MODE_SEPARATOR mode), Hs. reflexivity.
  - intros (Ha & Hb & Hab & ->). simpl in Ha, Hb.
    destruct Ha as [<-|[<-|[<-|[]]]]; destruct Hb as [<-|[<-|[<-|[]]]];
      try reflexivity; contradiction.
Qed.

(** C4. The mode resolver maps "xml2json" to (xml, json); "xmljson" fails
    with the invalid-mode error, which quotes the whole directive;
    "xml2xml" fails with the same-format error, which quotes the format;
    "xml2csv" fails with the unsupported-format error, which quotes "csv".
    In general a directive resolves to (a, b) exactly when it is a, the
    separator, b, with a and b two different supported formats. *)
Theorem parse_mode_directives :
  parse_mode "xml2json" = Returns ("xml", "json") /\
  parse_mode "xmljson" =
    Raises (value_error
      "Invalid mode format: xmljson. Expected format: 'from2to' (e.g., 'xml2json')") /\
  parse_mode "xml2xml" =
    Raises (value_error "Source and target formats are the same: xml") /\
  parse_mode "xml2csv" =
    Raises (value_error
      "Unsupported target format: csv. Supported: xml, json, yaml") /\
  (forall mode a b,
      parse_mode mode = Returns (a, b) <->
      In a supported_formats /\ In b supported_formats /\ a <> b /\
      mode = a +:+ String MODE_SEPARATOR b).
Proof.
  split; [reflexivity|]. split; [reflexivity|]. split; [reflexivity|].
  split; [reflexivity|]. exact parse_mode_Returns.
Qed.

(** C9, as the code has it.  A directive with exactly one separator and an
    empty source or target part never gets the invalid-mode error: it gets
    an unsupported-format error.  Source membership is checked before
    target membership, and that before identity, so the error names the
    empty part when the source is empty or is a supported format, and
    names the source part when the source is non-empty and unsupported. *)
Theorem parse_mode_empty_part (mode a b : string) :
  split MODE_SEPARATOR mode = [a; b] ->
  a = "" \/ b = "" ->
  parse_mode mode =
    (if str_in a supported_formats
     then Raises (value_error (msg_target ""))
     else Raises (value_error (msg_source a))) /\
  parse_mode mode =
    (if negb (str_in a supported_formats) then Raises (value_error (msg_source a))
     else if negb (str_in b supported_formats) then Raises (value_error (msg_target b))
     else if String.eqb a b then Raises (value_error (msg_same a))
     else Returns (a, b)).
Proof.
  intros Hs He. split; [|now apply parse_mode_two_parts].
  rewrite (parse_mode_two_parts _ _ _ Hs).
  destruct (str_in a supported_formats) eqn:Ha; [|reflexivity].
  destruct He as [->| ->]; [discriminate Ha | reflexivity].
Qed.

Lemma parse_mode_empty_part_witness :
  parse_mode "xml2" = Raises (value_error (msg_target "")) /\
  parse_mode "2json" = Raises (value_error (msg_source "")).
Proof.
  split.
  - apply (proj1 (parse_mode_empty_part "xml2" "xml" "" eq_refl (or_intror eq_refl))).
  - apply (proj1 (parse_mode_empty_part "2json" "" "json" eq_refl (or_introl eq_refl))).
Defined.

(** C9, as stated, fails: "foo2" has one separator and an empty target,
    and the error names the source part "foo", not the empty part. *)
Lemma parse_mode_empty_part_counterexample :
  split MODE_SEPARATOR "foo2" = ["foo"; ""] /\
  parse_mode "foo2" =
    Raises (value_error
      "Unsupported source format: foo. Supported: xml, json, yaml") /\
  parse_mode "foo2" <> Raises (value_error (msg_target "")) /\
  parse_mode "foo2" <> Raises (value_error (msg_source "")).
Proof. repeat split; try reflexivity; discriminate. Qed.

Lemma stripped_weaken (p q : ascii -> bool) (s : string) :
  (forall c, q c = true -> p c = true) -> stripped p s -> stripped q s.
Proof.
  intros Hqp. unfold stripped. induction s as [|c t IH]; [reflexivity|].
  intros H. apply stripped_String in H as [Ht Hc]. simpl.
  rewrite (IH Ht). destruct (str_is_empty t); [|reflexivity].
  simpl in *. destruct (q c) eqn:Eq; [|reflexivity].
  rewrite (Hqp c Eq) in Hc. discriminate Hc.
Qed.

Lemma is_nl_is_space (c : ascii) : is_nl c = true -> is_space c = true.
Proof. unfold is_nl. intros H. apply Ascii.eqb_eq in H. now subst. Qed.


(* ================================================================== *)
(** * Readers and writers *)

Section Pipeline.

Variable lib : library.

Lemma run_convert_data_json (v : pyval) :
  run (convert_data lib v "json") = (json_dumps lib v 2, [CallJsonDumps v 2]).
Proof. reflexivity. Qed.

Lemma run_convert_data_yaml (v : pyval) :
  run (convert_data lib v "yaml") =
  (yaml_dump lib (clean_data_for_yaml v), [CallYamlDump (clean_data_for_yaml v)]).
Proof. reflexivity. Qed.

Lemma run_convert_data_xml (v : pyval) :
  run (convert_data lib v "xml") = (xmltodict_unparse lib v, [CallXmlUnparse v]).
Proof. reflexivity. Qed.

Lemma load_data_yaml (content : string) (log : list call) :
  load_data lib content "yaml" log =
  if safe_parse_fails (yaml_safe_load lib content)
  then (yaml_load lib content,
        (log ++ [CallYamlSafeLoad content; CallYamlLoad content])%list)
  else (yaml_safe_load lib content, (log ++ [CallYamlSafeLoad content])%list).
Proof.
  unfold load_data, try_except, perform. simpl.
  destruct (yaml_safe_load lib content) as [v|e]; simpl; [reflexivity|].
  destruct (is_YAMLError e); [|reflexivity].
  now rewrite <- List.app_assoc.
Qed.

Lemma load_data_json (content : string) (log : list call) :
  load_data lib content "json" log =
  (json_loads lib content, (log ++ [CallJsonLoads content])%list).
Proof. reflexivity. Qed.

Lemma load_data_xml (content : string) (log : list call) :
  load_data lib content "xml" log =
  (xmltodict_parse lib content, (log ++ [CallXmlParse content])%list).
Proof. reflexivity. Qed.

End Pipeline.

Section PipelineFacts.

Variable lib : library.

Lemma load_data_fst (content fmt : string) (log : list call) :
  fst (load_data lib content fmt log) = fst (run (load_data lib content fmt)).
Proof.
  unfold run, load_data, try_except, perform, raise.
  repeat (destruct (String.eqb fmt _); [reflexivity|]); try reflexivity.
  destruct (String.eqb fmt "yaml"); [|reflexivity].
  destruct (yaml_safe_load lib content) as [v|e]; [reflexivity|].
  destruct (is_YAMLError e); reflexivity.
Qed.

Lemma convert_data_fst (v : pyval) (fmt : string) (log : list call) :
  fst (convert_data lib v fmt log) = fst (run (convert_data lib v fmt)).
Proof.
  unfold run, convert_data, perform, raise.
  repeat (destruct (String.eqb fmt _); [reflexivity|]). reflexivity.
Qed.

Lemma sub_main_fst (fs : string -> option string)
    (input_file mode from_fmt to_fmt content : string) :
  parse_mode mode = Returns (from_fmt, to_fmt) ->
  fs input_file = Some content ->
  fst (run (sub_main lib fs input_file mode)) =
  match fst (run (load_data lib content from_fmt)) with
  | Returns v => fst (run (convert_data lib v to_fmt))
  | Raises e => Raises e
  end.
Proof.
  intros Hm Hf. unfold sub_main, run, bind, lift, read_input_file, ret.
  rewrite Hm, Hf.
  destruct (load_data lib content from_fmt []) as [[v|e] log]; simpl;
    [apply convert_data_fst | reflexivity].
Qed.

Lemma round_trip_fst (v : pyval) (fmt : string) :
  fst (run (round_trip lib v fmt)) =
  match fst (run (convert_data lib v fmt)) with
  | Returns text => fst (run (load_data lib text fmt))
  | Raises e => Raises e
  end.
Proof.
  unfold round_trip, run, bind.
  destruct (convert_data lib v fmt []) as [[text|e] log]; simpl;
    [apply load_data_fst | reflexivity].
Qed.

Lemma convert_data_other (v : pyval) (to_fmt : string) :
  In to_fmt supported_formats -> to_fmt <> "xml" ->
  fst (run (convert_data lib v to_fmt)) =
  library_dump lib to_fmt (written_value to_fmt v).
Proof.
  intros [<-|[<-|[<-|[]]]] Hx; [contradiction | reflexivity | reflexivity].
Qed.

End PipelineFacts.


Lemma convert_json2yaml (lib : library) (t : string) :
  fst (run (convert lib t "json2yaml")) =
  match json_loads lib t with
  | Returns v => yaml_dump lib (clean_data_for_yaml v)
  | Raises e => Raises e
  end.
Proof.
  unfold convert.
  rewrite (sub_main_fst lib _ "input" "json2yaml" "json" "yaml" t) by reflexivity.
  unfold run at 1. rewrite load_data_json. cbn [fst].
  destruct (json_loads lib t); reflexivity.
Qed.

Lemma convert_yaml2json (lib : library) (y : string) :
  fst (run (convert lib y "yaml2json")) =
  match fst (run (load_data lib y "yaml")) with
  | Returns v => json_dumps lib v 2
  | Raises e => Raises e
  end.
Proof.
  unfold convert.
  rewrite (sub_main_fst lib _ "input" "yaml2json" "yaml" "json" y) by reflexivity.
  destruct (fst (run (load_data lib y "yaml"))); reflexivity.
Qed.


(** C7, as the code has it.  The converter never reorders keys: the
    yaml pre-pass keeps the nesting and every mapping's keys in order,
    the json writer hands the value itself to [json.dumps], the yaml
    writer hands the cleaned value to [yaml.dump], and the readers return
    what the library returned.  The order of the keys in the text is the
    library's. *)
Theorem key_order_up_to_library (lib : library) (v : pyval) :
  well_formed v = true ->
  skeleton_of (clean_data_for_yaml v) = skeleton_of v /\
  run (convert_data lib v "json") = (json_dumps lib v 2, [CallJsonDumps v 2]) /\
  run (convert_data lib v "yaml") =
    (yaml_dump lib (clean_data_for_yaml v),
     [CallYamlDump (clean_data_for_yaml v)]) /\
  (forall content,
      run (load_data lib content "json") =
        (json_loads lib content, [CallJsonLoads content]) /\
      run (load_data lib content "xml") =
        (xmltodict_parse lib content, [CallXmlParse content]) /\
      fst (run (load_data lib content "yaml")) =
        (if safe_parse_fails (yaml_safe_load lib content)
         then yaml_load lib content else yaml_safe_load lib content)).
Proof.
  intros Hwf. split; [now apply clean_data_for_yaml_skeleton|].
  split; [reflexivity|]. split; [reflexivity|].
  intros content. split; [reflexivity|]. split; [reflexivity|].
  unfold run. rewrite load_data_yaml.
  destruct (safe_parse_fails (yaml_safe_load lib content)); reflexivity.
Qed.

Lemma key_order_up_to_library_witness :
  skeleton_of (clean_data_for_yaml dict_b_a) = skeleton_of dict_b_a.
Proof.
  exact (proj1 (key_order_up_to_library sample_library dict_b_a eq_refl)).
Defined.

(** C7, as stated, fails for the yaml writer: a library that writes the
    same text for a mapping whichever the order of its keys, as
    [yaml.dump] does with the defaults the converter leaves in place
    (keys sorted), cannot give both orders back. *)
Lemma key_order_yaml_counterexample :
  canonical dict_b_a = true /\ canonical dict_a_b = true /\
  ~ exists lib : library,
      yaml_dump lib dict_b_a = yaml_dump lib dict_a_b /\
      key_order_kept lib dict_b_a /\ key_order_kept lib dict_a_b.
Proof.
  split; [reflexivity|]. split; [reflexivity|].
  intros (lib & Hs & (w1 & H1 & S1) & (w2 & H2 & S2)).
  rewrite round_trip_fst, run_convert_data_yaml in H1, H2. cbn [fst] in H1, H2.
  change (clean_data_for_yaml dict_b_a) with dict_b_a in H1.
  change (clean_data_for_yaml dict_a_b) with dict_a_b in H2.
  rewrite Hs, H2 in H1. injection H1 as <-.
  rewrite S1 in S2. discriminate S2.
Qed.

(* ================================================================== *)
(** * Further properties of the mode resolver *)

Lemma split_length (sep : ascii) (s : string) :
  length (split sep s) = S (str_count sep s).
Proof.
  induction s as [|c t IH]; [reflexivity|]. simpl.
  destruct (Ascii.eqb c sep); simpl; [now rewrite IH|].
  destruct (split sep t) as [|w ws] eqn:E; [exfalso; eapply split_not_nil, E|].
  exact IH.
Qed.

Lemma str_contains_count (c : ascii) (s : string) :
  str_contains c s = negb (Nat.eqb (str_count c s) 0).
Proof.
  induction s as [|a t IH]; [reflexivity|]. simpl.
  destruct (Ascii.eqb a c); [reflexivity | exact IH].
Qed.

Lemma append_cancel_l (a x y : string) : a +:+ x = a +:+ y -> x = y.
Proof. induction a as [|c t IH]; simpl; [trivial|]. intros [= H]. auto. Qed.

Lemma msg_no_separator_not_parts (mode : string) :
  msg_no_separator mode <> msg_parts mode.
Proof.
  unfold msg_no_separator, msg_parts. intros H.
  apply append_cancel_l, append_cancel_l in H. discriminate H.
Qed.

Lemma parse_mode_no_separator (mode : string) :
  str_count MODE_SEPARATOR mode = 0 ->
  parse_mode mode = Raises (value_error (msg_no_separator mode)).
Proof.
  intros H. unfold parse_mode. now rewrite str_contains_count, H.
Qed.

Lemma parse_mode_many_separators (mode : string) :
  2 <= str_count MODE_SEPARATOR mode ->
  parse_mode mode = Raises (value_error (msg_parts mode)).
Proof.
  intros H. unfold parse_mode. rewrite str_contains_count.
  destruct (str_count MODE_SEPARATOR mode) as [|[|n]] eqn:E; try lia.
  simpl negb. cbv iota. rewrite split_length, E. reflexivity.
Qed.

Lemma parse_mode_one_separator (mode : string) :
  str_count MODE_SEPARATOR mode = 1 ->
  exists a b, split MODE_SEPARATOR mode = [a; b].
Proof.
  intros H. pose proof (split_length MODE_SEPARATOR mode) as L. rewrite H in L.
  destruct (split MODE_SEPARATOR mode) as [|a [|b [|c r]]]; try discriminate L.
  now exists a, b.
Qed.

Lemma parse_mode_one_separator_message (mode : string) (m : string) :
  str_count MODE_SEPARATOR mode = 1 ->
  parse_mode mode = Raises (value_error m) ->
  exists c rest, m = String c rest /\ c <> "I"%char.
Proof.
  intros H. destruct (parse_mode_one_separator mode H) as (a & b & Hs).
  rewrite (parse_mode_two_parts _ _ _ Hs).
  destruct (negb (str_in a supported_formats)).
  { intros [= <-]. eexists _, _. split; [reflexivity | discriminate]. }
  destruct (negb (str_in b supported_formats)).
  { intros [= <-]. eexists _, _. split; [reflexivity | discriminate]. }
  destruct (String.eqb a b); [|discriminate].
  intros [= <-]. eexists _, _. split; [reflexivity | discriminate].
Qed.

(** X1.  The number of separators decides the two invalid-mode errors:
    the directive gets the error that asks for the form 'from2to' exactly
    when it has no separator, and the error that asks for exactly one
    separator exactly when it has two or more, whatever stands between
    them. *)
Theorem parse_mode_separator_count (mode : string) :
  (parse_mode mode = Raises (value_error (msg_no_separator mode)) <->
   str_count MODE_SEPARATOR mode = 0) /\
  (parse_mode mode = Raises (value_error (msg_parts mode)) <->
   2 <= str_count MODE_SEPARATOR mode).
Proof.
  destruct (str_count MODE_SEPARATOR mode) as [|[|n]] eqn:E.
  - rewrite (parse_mode_no_separator mode E). split; split; try lia; auto.
    intros H. exfalso. apply (msg_no_separator_not_parts mode).
    unfold value_error in H. congruence.
  - split; split; try lia; intros H;
      destruct (parse_mode_one_separator_message mode _ E H)
        as (c & rest & Hm & Hc);
      unfold msg_no_separator, msg_parts in Hm; simpl in Hm;
      injection Hm as <- _; now contradiction Hc.
  - assert (H2 : 2 <= str_count MODE_SEPARATOR mode) by lia.
    rewrite (parse_mode_many_separators mode H2). split; split; try lia; auto.
    intros H. exfalso. apply (msg_no_separator_not_parts mode).
    unfold value_error in H. congruence.
Qed.

(** X2.  Six directives are accepted, and no other text: [parse_mode]
    returns a pair exactly on xml2json, xml2yaml, json2xml, json2yaml,
    yaml2xml and yaml2json, and the pair is the two halves of the
    directive. *)
Theorem parse_mode_accepted (mode : string) :
  (exists a b, parse_mode mode = Returns (a, b)) <-> In mode accepted_modes.
Proof.
  split.
  - intros (a & b & H). apply parse_mode_Returns in H as (Ha & Hb & Hab & ->).
    simpl in Ha, Hb.
    destruct Ha as [<-|[<-|[<-|[]]]]; destruct Hb as [<-|[<-|[<-|[]]]];
      simpl; tauto.
  - simpl. intros [<-|[<-|[<-|[<-|[<-|[<-|[]]]]]]]; eexists _, _; reflexivity.
Qed.

(* ================================================================== *)
(** * Further properties of the cleaning pass *)

Lemma str_filter_app (p : ascii -> bool) (a b : string) :
  str_filter p (a +:+ b) = str_filter p a +:+ str_filter p b.
Proof.
  induction a as [|c t IH]; [reflexivity|]. simpl.
  destruct (p c); simpl; now rewrite IH.
Qed.

Lemma non_space_rstrip_with (p : ascii -> bool) (s : string) :
  (forall c, p c = true -> is_space c = true) ->
  non_space (rstrip_with p s) = non_space s.
Proof.
  intros Hp. unfold non_space. induction s as [|c t IH]; [reflexivity|]. simpl.
  destruct (str_is_empty (rstrip_with p t)) eqn:Ee; simpl.
  - apply str_is_empty_true in Ee. rewrite Ee in IH. simpl in IH.
    destruct (p c) eqn:Ec.
    + rewrite (Hp c Ec). simpl. exact IH.
    + rewrite Ee. simpl. now rewrite <- IH.
  - now rewrite IH.
Qed.

Lemma non_space_join (ls : list string) :
  non_space (join nl_str ls) = String.concat "" (map non_space ls).
Proof.
  induction ls as [|x [|y r] IH]; [reflexivity | |].
  - reflexivity.
  - unfold nl_str in *. rewrite join_cons2. unfold non_space in *.
    rewrite !str_filter_app, IH. reflexivity.
Qed.

Lemma length_rstrip_with (p : ascii -> bool) (s : string) :
  String.length (rstrip_with p s) <= String.length s.
Proof.
  induction s as [|c t IH]; [reflexivity|]. simpl.
  destruct (str_is_empty (rstrip_with p t) && p c); simpl; lia.
Qed.

Lemma length_append (a b : string) :
  String.length (a +:+ b) = String.length a + String.length b.
Proof. induction a as [|c t IH]; simpl; [reflexivity | now rewrite IH]. Qed.

Lemma length_join_map (f : string -> string) (ls : list string) :
  (forall l, String.length (f l) <= String.length l) ->
  String.length (join nl_str (map f ls)) <= String.length (join nl_str ls).
Proof.
  intros Hf. induction ls as [|x [|y r] IH]; [reflexivity | apply Hf |].
  change (map f (x :: y :: r)) with (f x :: f y :: map f r).
  unfold nl_str in *.
  rewrite !join_cons2, !length_append. specialize (Hf x).
  change (f y :: map f r) with (map f (y :: r)). lia.
Qed.

(** X3.  The pass removes whitespace and nothing else: the characters of
    a cleaned string that are not whitespace are those of the input, in
    the same order, and the cleaned string is never longer than the
    input. *)
Theorem clean_str_removes_whitespace_only (s : string) :
  clean_data_for_yaml (PStr s) = PStr (clean_str s) /\
  non_space (clean_str s) = non_space s /\
  String.length (clean_str s) <= String.length s.
Proof.
  split; [reflexivity|]. unfold clean_str. split.
  - unfold rstrip at 1. rewrite non_space_rstrip_with by trivial.
    rewrite non_space_join, List.map_map.
    erewrite List.map_ext
      by (intros l; unfold rstrip; apply non_space_rstrip_with; trivial).
    rewrite <- non_space_join. unfold nl_str. rewrite join_split.
    apply non_space_rstrip_with, is_nl_is_space.
  - etransitivity; [apply length_rstrip_with|].
    etransitivity; [apply length_join_map; intros l; apply length_rstrip_with|].
    unfold nl_str. rewrite join_split. apply length_rstrip_with.
Qed.

Section CycleFacts.

Import Store.

Lemma map_in_fails {A B : Type} (f : heap -> A -> option (heap * B)) :
  (forall h x h' y, f h x = Some (h', y) -> h `prefix_of` h') ->
  forall xs (h : heap) x,
    In x xs ->
    (forall h' : heap, h `prefix_of` h' -> f h' x = None) ->
    map_in f h xs = None.
Proof.
  intros Hf. induction xs as [|a r IH]; intros h x Hin Hx; [destruct Hin|].
  simpl. destruct (f h a) as [[h1 y]|] eqn:E; [|reflexivity]. simpl.
  destruct Hin as [->|Hin].
  - rewrite (Hx h) in E by reflexivity. discriminate E.
  - rewrite (IH h1 x Hin); [reflexivity|].
    intros h' Hp. apply Hx. transitivity h1; [eapply Hf, E | exact Hp].
Qed.

Lemma reaches_mono (h h' : heap) (a b : loc) :
  h `prefix_of` h' -> reaches h a b -> reaches h' a b.
Proof.
  intros Hp. induction 1 as [l l' o Hl Ho | l l' l'' o Hl Ho _ IH].
  - eapply reaches_step; [eapply prefix_lookup_Some; eassumption | exact Ho].
  - eapply reaches_more; [eapply prefix_lookup_Some; eassumption | exact Ho | exact IH].
Qed.

Lemma reaches_snoc (h : heap) (a b c : loc) (o : object) :
  reaches h a b -> h !! b = Some o -> object_holds o c = true -> reaches h a c.
Proof.
  induction 1 as [l l' o' Hl Ho | l l' l'' o' Hl Ho _ IH]; intros Hb Hc.
  - eapply reaches_more; [exact Hl | exact Ho |]. eapply reaches_step; eassumption.
  - eapply reaches_more; [exact Hl | exact Ho | now apply IH].
Qed.

Lemma cycle_next (h : heap) (l : loc) :
  reaches h l l ->
  exists o l', h !! l = Some o /\ object_holds o l' = true /\ reaches h l' l'.
Proof.
  intros H. inversion H as [? ? o Hl Ho | ? l' ? o Hl Ho Hr]; subst.
  - exists o, l. auto.
  - exists o, l'. split; [exact Hl|]. split; [exact Ho|].
    eapply reaches_snoc; eassumption.
Qed.

Lemma existsb_is_ref {A : Type} (g : A -> val) (xs : list A) (l : loc) :
  existsb (fun x => is_ref (g x) l) xs = true ->
  exists x, In x xs /\ g x = VRef l.
Proof.
  intros H. apply existsb_exists in H as (x & Hin & Hx). exists x.
  split; [exact Hin|]. destruct (g x); try discriminate Hx.
  apply Nat.eqb_eq in Hx. now subst.
Qed.

Lemma clean_in_cycle (depth : nat) :
  forall (h : heap) (l : loc),
    reaches h l l -> clean_data_for_yaml_in depth h (VRef l) = None.
Proof.
  induction depth as [|d IH]; intros h l Hc; [reflexivity|].
  destruct (cycle_next h l Hc) as (o & l' & Hl & Ho & Hc').
  rewrite clean_in_ref, Hl.
  assert (Hd : forall h' : heap, h `prefix_of` h' ->
                 clean_data_for_yaml_in d h' (VRef l') = None).
  { intros h' Hp. apply IH. eapply reaches_mono; eassumption. }
  destruct o as [items|items|xs|tag]; simpl in Ho; try discriminate Ho.
  - apply existsb_is_ref in Ho as (kv & Hin & Hkv).
    rewrite (map_in_fails (on_value (clean_data_for_yaml_in d))
               (on_value_prefix _ (clean_in_prefix d)) items h kv Hin);
      [reflexivity|].
    intros h' Hp. unfold on_value. rewrite Hkv, (Hd h' Hp). reflexivity.
  - apply existsb_is_ref in Ho as (kv & Hin & Hkv).
    rewrite (map_in_fails (on_value (clean_data_for_yaml_in d))
               (on_value_prefix _ (clean_in_prefix d)) items h kv Hin);
      [reflexivity|].
    intros h' Hp. unfold on_value. rewrite Hkv, (Hd h' Hp). reflexivity.
  - apply (existsb_is_ref (fun x => x)) in Ho as (x & Hin & ->).
    rewrite (map_in_fails (clean_data_for_yaml_in d) (clean_in_prefix d)
               xs h (VRef l') Hin Hd).
    reflexivity.
Qed.

End CycleFacts.

(** X4.  The pass has no check for cycles: on a [dict] or [list] that
    contains itself, directly or through other containers, no run
    returns, whatever the recursion depth the interpreter allows. *)
Theorem clean_data_for_yaml_cycle (h : Store.heap) (l : Store.loc) (depth : nat) :
  reaches h l l ->
  Store.clean_data_for_yaml_in depth h (Store.VRef l) = None.
Proof. intros H. now apply clean_in_cycle. Qed.

Lemma clean_data_for_yaml_cycle_witness :
  Store.clean_data_for_yaml_in 1000
    [Store.OList [Store.VInt 1; Store.VRef 1];
     Store.ODict [("up", Store.VRef 0)]] (Store.VRef 0) = None.
Proof.
  apply clean_data_for_yaml_cycle.
  eapply reaches_more with (l' := 1); [reflexivity | reflexivity |].
  eapply reaches_step; reflexivity.
Defined.

(* ================================================================== *)
(** * Further properties of the readers, the writers and sub_main *)

Section StageFacts.

Variable lib : library.

Lemma str_in_supported_false (fmt : string) :
  str_in fmt supported_formats = false ->
  String.eqb fmt "xml" = false /\ String.eqb fmt "json" = false /\
  String.eqb fmt "yaml" = false.
Proof.
  simpl. intros H. repeat (apply orb_false_iff in H as [? H]). auto.
Qed.

Lemma load_data_supported (content fmt : string) (log : list call) :
  In fmt supported_formats ->
  load_data lib content fmt log =
  (fst (run (load_data lib content fmt)),
   (log ++ reader_calls lib fmt content)%list).
Proof.
  intros [<-|[<-|[<-|[]]]].
  - reflexivity.
  - reflexivity.
  - unfold run. rewrite !load_data_yaml. unfold reader_calls. simpl.
    destruct (safe_parse_fails (yaml_safe_load lib content)); reflexivity.
Qed.

Lemma convert_data_supported (v : pyval) (fmt : string) (log : list call) :
  In fmt supported_formats ->
  convert_data lib v fmt log =
  (writer_outcome lib fmt v, (log ++ [writer_call fmt v])%list).
Proof. intros [<-|[<-|[<-|[]]]]; reflexivity. Qed.

Lemma reader_calls_not_nil (fmt content : string) :
  reader_calls lib fmt content <> [].
Proof.
  unfold reader_calls.
  destruct (String.eqb fmt "xml"); [discriminate|].
  destruct (String.eqb fmt "json"); [discriminate|].
  destruct (safe_parse_fails _); discriminate.
Qed.

End StageFacts.

(** X5.  A format name other than xml, json and yaml, in exactly these
    letters: the reader and the writer raise their own ValueError, which
    quotes the name, and call no library; on a supported name they call
    one. *)
Theorem unexpected_format_no_library_call (lib : library) (content : string)
    (v : pyval) (fmt : string) :
  (str_in fmt supported_formats = false ->
   run (load_data lib content fmt) =
     (Raises (value_error ("Unexpected source format: " +:+ fmt)), []) /\
   run (convert_data lib v fmt) =
     (Raises (value_error ("Unexpected target format: " +:+ fmt)), [])) /\
  (str_in fmt supported_formats = true ->
   snd (run (load_data lib content fmt)) <> [] /\
   snd (run (convert_data lib v fmt)) = [writer_call fmt v]).
Proof.
  split; intros H.
  - apply str_in_supported_false in H as (Hx & Hj & Hy).
    unfold run, load_data, convert_data. rewrite Hx, Hj, Hy. split; reflexivity.
  - apply str_in_In in H. unfold run.
    rewrite load_data_supported, convert_data_supported by assumption.
    split; [apply reader_calls_not_nil | reflexivity].
Qed.

Lemma unexpected_format_no_library_call_witness :
  run (load_data sample_library "<a/>" "XML") =
    (Raises (value_error "Unexpected source format: XML"), []) /\
  snd (run (convert_data sample_library PNone "json")) = [CallJsonDumps PNone 2].
Proof.
  split.
  - exact (proj1 (proj1 (unexpected_format_no_library_call sample_library
                           "<a/>" PNone "XML") eq_refl)).
  - exact (proj2 (proj2 (unexpected_format_no_library_call sample_library
                           "" PNone "json") eq_refl)).
Defined.


(* ================================================================== *)
(** * write_output and the whole of sub_main *)

Lemma write_file_same (path text : string) (h : host) :
  files (write_file path text h) path = Some text.
Proof. unfold write_file. simpl. now rewrite String.eqb_refl. Qed.

Lemma write_file_other (path text q : string) (h : host) :
  q <> path -> files (write_file path text h) q = files h q.
Proof.
  intros Hq. unfold write_file. simpl.
  destruct (String.eqb_spec q path); [contradiction | reflexivity].
Qed.

(* ================================================================== *)
(** * update_pyproject_tools *)

Section DictLookup.

Context {V : Type}.
Implicit Types (d : list (string * V)) (k : string) (v : V).

Lemma dict_get_setitem_eq d k v : dict_get (dict_setitem d k v) k = Some v.
Proof.
  induction d as [|[k' v'] r IH]; simpl.
  - now rewrite String.eqb_refl.
  - destruct (String.eqb k' k) eqn:E; simpl; now rewrite E.
Qed.

Lemma dict_get_setitem_ne d k k' v :
  k' <> k -> dict_get (dict_setitem d k v) k' = dict_get d k'.
Proof.
  intros Hne. induction d as [|[k0 v0] r IH]; simpl.
  - destruct (String.eqb_spec k k'); [congruence | reflexivity].
  - destruct (String.eqb_spec k0 k) as [->|Hk]; simpl.
    + destruct (String.eqb_spec k k'); [congruence | reflexivity].
    + now rewrite IH.
Qed.

Lemma dict_setitem_get_id d k v :
  dict_get d k = Some v -> dict_setitem d k v = d.
Proof.
  induction d as [|[k0 v0] r IH]; simpl; [discriminate|].
  destruct (String.eqb_spec k0 k) as [->|Hk].
  - now intros [= ->].
  - intros H. now rewrite IH.
Qed.

Lemma dict_setitem_keys d k v :
  map fst (dict_setitem d k v) =
  match dict_get d k with
  | Some _ => map fst d
  | None => (map fst d ++ [k])%list
  end.
Proof.
  induction d as [|[k0 v0] r IH]; simpl; [reflexivity|].
  destruct (String.eqb_spec k0 k) as [->|Hk]; simpl; [reflexivity|].
  rewrite IH. now destruct (dict_get r k).
Qed.

Lemma dict_get_None_keys d k : dict_get d k = None <-> ~ In k (map fst d).
Proof.
  induction d as [|[k0 v0] r IH]; simpl; [tauto|].
  destruct (String.eqb_spec k0 k) as [->|Hk]; [split; [discriminate | tauto]|].
  rewrite IH. tauto.
Qed.

End DictLookup.

Section MergeFacts.

Import Pyproject.

Variable env : environment.

Lemma copy_tools_table (entries t : list (string * item)) :
  copy_tools env entries (Table t) = Returns (Table (copied_into entries t)).
Proof.
  revert t. induction entries as [|[k v] r IH]; intros t; [reflexivity|].
  simpl. unfold copied_into. simpl.
  destruct (negb (String.eqb k "uv")); apply IH.
Qed.

Lemma copy_tools_other (entries : list (string * item)) (text : string) :
  copy_tools env entries (Other text) =
  if has_copied_entry entries then Raises (setitem_error env (Other text))
  else Returns (Other text).
Proof.
  induction entries as [|[k v] r IH]; [reflexivity|]. simpl.
  unfold has_copied_entry. simpl.
  destruct (negb (String.eqb k "uv")); [reflexivity | exact IH].
Qed.

Lemma copied_into_kept (entries t : list (string * item)) (k : string) :
  k = "uv" \/ dict_get entries k = None ->
  dict_get (copied_into entries t) k = dict_get t k.
Proof.
  revert t. induction entries as [|[k0 v0] r IH]; intros t Hk; [reflexivity|].
  unfold copied_into. simpl.
  change (fold_left _ r ?x) with (copied_into r x).
  assert (Hr : k = "uv" \/ dict_get r k = None).
  { destruct Hk as [Hk|Hk]; [now left|]. simpl in Hk.
    destruct (String.eqb k0 k); [discriminate Hk | now right]. }
  destruct (String.eqb_spec k0 "uv") as [->|Huv]; simpl; [now apply IH|].
  rewrite (IH _ Hr). apply dict_get_setitem_ne.
  destruct Hk as [->|Hk]; [congruence|]. simpl in Hk.
  destruct (String.eqb_spec k0 k); [discriminate Hk | congruence].
Qed.

Lemma copied_into_copied (entries t : list (string * item)) (k : string)
    (v : item) :
  List.NoDup (map fst entries) ->
  k <> "uv" -> dict_get entries k = Some v ->
  dict_get (copied_into entries t) k = Some v.
Proof.
  revert t. induction entries as [|[k0 v0] r IH]; intros t Hnd Huv Hk;
    [discriminate Hk|].
  unfold copied_into. simpl.
  change (fold_left _ r ?x) with (copied_into r x).
  simpl in Hnd. apply List.NoDup_cons_iff in Hnd as [Hk0 Hnd]. simpl in Hk.
  destruct (String.eqb_spec k0 k) as [->|Hne].
  - injection Hk as ->.
    destruct (String.eqb_spec k "uv"); [contradiction|]. simpl.
    rewrite copied_into_kept by (right; now apply dict_get_None_keys).
    apply dict_get_setitem_eq.
  - destruct (negb (String.eqb k0 "uv")); now apply IH.
Qed.

Lemma copied_into_fixed (entries t : list (string * item)) :
  (forall k v, In (k, v) entries -> k <> "uv" -> dict_get t k = Some v) ->
  copied_into entries t = t.
Proof.
  induction entries as [|[k0 v0] r IH]; intros H; [reflexivity|].
  unfold copied_into. simpl.
  change (fold_left _ r ?x) with (copied_into r x).
  assert (Hr : forall k v, In (k, v) r -> k <> "uv" -> dict_get t k = Some v).
  { intros k v Hin. apply H. now right. }
  destruct (String.eqb_spec k0 "uv") as [->|Huv]; simpl; [now apply IH|].
  rewrite (dict_setitem_get_id t k0 v0) by (apply H; [now left | exact Huv]).
  now apply IH.
Qed.

Lemma dict_get_In_unique {V : Type} (d : list (string * V)) (k : string) (v : V) :
  List.NoDup (map fst d) -> In (k, v) d -> dict_get d k = Some v.
Proof.
  induction d as [|[k0 v0] r IH]; simpl; intros Hnd Hin; [destruct Hin|].
  apply List.NoDup_cons_iff in Hnd as [Hk0 Hnd].
  destruct Hin as [[= -> ->]|Hin]; [now rewrite String.eqb_refl|].
  destruct (String.eqb_spec k0 k) as [->|Hne]; [|now apply IH].
  exfalso. apply Hk0. apply List.in_map_iff. now exists (k, v).
Qed.

Lemma copied_into_idem (entries t : list (string * item)) :
  List.NoDup (map fst entries) ->
  copied_into entries (copied_into entries t) = copied_into entries t.
Proof.
  intros Hnd. apply copied_into_fixed. intros k v Hin Huv.
  apply copied_into_copied; [exact Hnd | exact Huv |].
  now apply dict_get_In_unique.
Qed.

End MergeFacts.

Section MergeCases.

Import Pyproject.

Variable env : environment.

Lemma dict_setitem_twice {V : Type} (d : list (string * V)) (k : string) (a b : V) :
  dict_setitem (dict_setitem d k a) k b = dict_setitem d k b.
Proof.
  induction d as [|[k0 v0] r IH]; simpl.
  - now rewrite String.eqb_refl.
  - destruct (String.eqb k0 k) eqn:E; simpl; rewrite E; [reflexivity|].
    now rewrite IH.
Qed.

(** The update by the shape of the two [tool] items. *)
Lemma merge_tools_cases (g p : document) :
  merge_tools env g p =
  match dict_get g "tool" with
  | None => Returns p
  | Some (Other x) => Raises (items_error env (Other x))
  | Some (Table entries) =>
      match dict_get p "tool" with
      | None => Returns (p ++ [("tool", Table (copied_into entries []))])%list
      | Some (Table t) =>
          Returns (dict_setitem p "tool" (Table (copied_into entries t)))
      | Some (Other y) =>
          if has_copied_entry entries
          then Raises (setitem_error env (Other y))
          else Returns p
      end
  end.
Proof.
  unfold merge_tools.
  destruct (dict_get g "tool") as [[entries|x]|]; [| |reflexivity].
  - destruct (dict_get p "tool") as [[t|y]|] eqn:Ep.
    + rewrite Ep, copy_tools_table. reflexivity.
    + rewrite Ep, copy_tools_other.
      destruct (has_copied_entry entries); [reflexivity|].
      now rewrite (dict_setitem_get_id p "tool" (Other y) Ep).
    + rewrite dict_get_setitem_eq, copy_tools_table, dict_setitem_twice.
      rewrite dict_setitem_fresh by now apply dict_get_None_keys.
      reflexivity.
  - now destruct (dict_get p "tool").
Qed.

Lemma dict_get_app_fresh {V : Type} (d : list (string * V)) (k k' : string) (v : V) :
  dict_get d k = None ->
  dict_get (d ++ [(k, v)]) k' = if String.eqb k k' then Some v else dict_get d k'.
Proof.
  induction d as [|[k0 v0] r IH]; simpl; [reflexivity|].
  destruct (String.eqb_spec k0 k) as [->|Hk]; [discriminate|]. intros H.
  rewrite (IH H).
  destruct (String.eqb_spec k0 k'); [|reflexivity].
  destruct (String.eqb_spec k k'); [congruence | reflexivity].
Qed.

Lemma has_copied_entry_get (entries : list (string * item)) (k : string) (v : item) :
  k <> "uv" -> dict_get entries k = Some v -> has_copied_entry entries = true.
Proof.
  intros Huv. unfold has_copied_entry.
  induction entries as [|[k0 v0] r IH]; simpl; [discriminate|].
  destruct (String.eqb_spec k0 k) as [->|Hne].
  - intros _. destruct (String.eqb_spec k "uv"); [contradiction | reflexivity].
  - intros H. rewrite (IH H). apply orb_true_r.
Qed.

End MergeCases.

(** X9.  What the update leaves alone.  When it returns, every top-level
    key other than [tool] has the item it had, the keys of the document
    are in the order they were in, with [tool] added at the end when the
    template has it and the project had not, and under [tool] the entry
    [uv] and every entry the template does not have are the
    project's. *)
Theorem merge_tools_preserves (env : Pyproject.environment)
    (g p p' : Pyproject.document) :
  Pyproject.merge_tools env g p = Returns p' ->
  (forall k, k <> "tool" -> dict_get p' k = dict_get p k) /\
  (forall k, k = "uv" \/ tool_entry g k = None ->
             tool_entry p' k = tool_entry p k) /\
  map fst p' =
    match dict_get g "tool", dict_get p "tool" with
    | Some _, None => (map fst p ++ ["tool"])%list
    | _, _ => map fst p
    end.
Proof.
  rewrite merge_tools_cases. unfold tool_entry, Pyproject.tool_table.
  destruct (dict_get g "tool") as [[entries|x]|] eqn:Eg;
    [| intros H; discriminate H
     | intros [= <-]; (split; [|split]); intros; reflexivity].
  destruct (dict_get p "tool") as [[t|y]|] eqn:Ep.
  - intros [= <-]. split; [|split].
    + intros k Hk. now apply dict_get_setitem_ne.
    + intros k Hk. rewrite dict_get_setitem_eq. now apply copied_into_kept.
    + now rewrite dict_setitem_keys, Ep.
  - destruct (has_copied_entry entries); [intros H; discriminate H|].
    intros [= <-]. now rewrite Ep.
  - intros [= <-]. split; [|split].
    + intros k Hk. rewrite (dict_get_app_fresh p "tool" k _ Ep).
      destruct (String.eqb_spec "tool" k); [congruence | reflexivity].
    + intros k Hk. rewrite (dict_get_app_fresh p "tool" "tool" _ Ep), Ep. simpl.
      now rewrite copied_into_kept.
    + now rewrite List.map_app.
Qed.

Lemma merge_tools_preserves_witness :
  tool_entry sample_merged "uv" = tool_entry sample_project "uv" /\
  tool_entry sample_merged "mypy" = tool_entry sample_project "mypy" /\
  dict_get sample_merged "project" = dict_get sample_project "project".
Proof.
  destruct (merge_tools_preserves sample_environment sample_template
              sample_project sample_merged eq_refl) as (Htop & Htool & _).
  split; [apply Htool; now left|].
  split; [apply Htool; now right | apply Htop; discriminate].
Defined.

(** X10.  What the update copies.  When it returns, every entry of the
    template's [tool] table other than [uv] is in the project's [tool]
    table with the template's item, whether the project had the key or
    not. *)
Theorem merge_tools_copies (env : Pyproject.environment)
    (g p p' : Pyproject.document) (k : string) (v : Pyproject.item) :
  Pyproject.merge_tools env g p = Returns p' ->
  tool_keys_unique g = true ->
  k <> "uv" ->
  tool_entry g k = Some v ->
  tool_entry p' k = Some v.
Proof.
  rewrite merge_tools_cases. unfold tool_entry, tool_keys_unique, Pyproject.tool_table.
  destruct (dict_get g "tool") as [[entries|x]|] eqn:Eg;
    [| intros H; discriminate H | intros _ _ _ H; discriminate H].
  intros H Hu Huv Hk. apply keys_unique_NoDup in Hu.
  destruct (dict_get p "tool") as [[t|y]|] eqn:Ep.
  - injection H as <-. rewrite dict_get_setitem_eq. now apply copied_into_copied.
  - rewrite (has_copied_entry_get entries k v Huv Hk) in H. discriminate H.
  - injection H as <-. rewrite (dict_get_app_fresh p "tool" "tool" _ Ep). simpl.
    now apply copied_into_copied.
Qed.

Lemma merge_tools_copies_witness :
  tool_entry sample_merged "ruff" = Some (Pyproject.Other "line-length = 88").
Proof.
  refine (merge_tools_copies sample_environment sample_template sample_project
            sample_merged "ruff" _ eq_refl eq_refl _ eq_refl).
  discriminate.
Defined.

(** X11.  The update is idempotent: run again on its own result with the
    same template, it returns that result unchanged. *)
Theorem merge_tools_idempotent (env : Pyproject.environment)
    (g p p' : Pyproject.document) :
  Pyproject.merge_tools env g p = Returns p' ->
  tool_keys_unique g = true ->
  Pyproject.merge_tools env g p' = Returns p'.
Proof.
  rewrite !merge_tools_cases. unfold tool_keys_unique, Pyproject.tool_table.
  destruct (dict_get g "tool") as [[entries|x]|] eqn:Eg;
    [| intros H; discriminate H | trivial].
  intros H Hu. apply keys_unique_NoDup in Hu.
  destruct (dict_get p "tool") as [[t|y]|] eqn:Ep.
  - injection H as <-. rewrite dict_get_setitem_eq, dict_setitem_twice.
    now rewrite copied_into_idem.
  - destruct (has_copied_entry entries) eqn:Ec; [discriminate H|].
    injection H as <-. now rewrite Ep.
  - injection H as <-. rewrite (dict_get_app_fresh p "tool" "tool" _ Ep). simpl.
    rewrite copied_into_idem by assumption.
    rewrite dict_setitem_get_id; [reflexivity|].
    now rewrite (dict_get_app_fresh p "tool" "tool" _ Ep).
Qed.

Lemma merge_tools_idempotent_witness :
  Pyproject.merge_tools sample_environment sample_template sample_merged =
  Returns sample_merged.
Proof.
  exact (merge_tools_idempotent sample_environment sample_template
           sample_project sample_merged eq_refl eq_refl).
Defined.

Section UpdateFacts.

Import Pyproject.

Variable env : environment.

Lemma save_toml_effects (data : document) (path : string) (h h' : host)
    (o : outcome unit) :
  save_toml env data path h = (o, h') ->
  (forall q, q <> path -> files h' q = files h q) /\
  stdout h' = stdout h /\
  match o with
  | Returns _ =>
      exists text, toml_dumps env data = Returns text /\
                   files h' path = Some text
  | Raises e =>
      h' = h \/ (files h' path = Some "" /\ toml_dumps env data = Raises e)
  end.
Proof.
  unfold save_toml. destruct (open_w_error env path) as [e|].
  { intros [= <- <-]. repeat split; auto. }
  destruct (toml_dumps env data) as [text|e]; intros [= <- <-].
  - split; [intros q Hq; now apply write_file_other|]. split; [reflexivity|].
    exists text. split; [reflexivity | apply write_file_same].
  - split; [intros q Hq; now apply write_file_other|]. split; [reflexivity|].
    right. split; [apply write_file_same | reflexivity].
Qed.

Lemma update_effects (global_path project_path : string) (h h' : host)
    (o : outcome unit) :
  update_pyproject_tools env global_path project_path h = (o, h') ->
  (forall q, q <> project_path -> files h' q = files h q) /\
  match o with
  | Returns _ =>
      exists g p merged text,
        load_toml env global_path h = Returns g /\
        load_toml env project_path h = Returns p /\
        merge_tools env g p = Returns merged /\
        toml_dumps env merged = Returns text /\
        files h' project_path = Some text /\
        stdout h' =
          (stdout h ++ ["Updated " +:+ project_path +:+
                        " with tool configurations from " +:+ global_path])%list
  | Raises e =>
      stdout h' = stdout h /\
      (h' = h \/
       (files h' project_path = Some "" /\
        exists merged, toml_dumps env merged = Raises e))
  end.
Proof.
  unfold update_pyproject_tools.
  destruct (load_toml env global_path h) as [g|e]; [|intros [= <- <-]; auto].
  destruct (load_toml env project_path h) as [p|e]; [|intros [= <- <-]; auto].
  destruct (merge_tools env g p) as [merged|e] eqn:Em; [|intros [= <- <-]; auto].
  destruct (save_toml env merged project_path h) as [[u|e] h1] eqn:Es;
    intros [= <- <-];
    destruct (save_toml_effects _ _ _ _ _ Es) as (Hframe & Hout & Hres).
  - split; [exact Hframe|]. destruct Hres as (text & Hd & Hf).
    exists g, p, merged, text. simpl. rewrite Hout.
    split; [reflexivity|]. split; [reflexivity|]. split; [exact Em|].
    split; [exact Hd|]. split; [exact Hf | reflexivity].
  - split; [exact Hframe|]. split; [exact Hout|].
    destruct Hres as [->|[Hf Hd]]; [now left | right; eauto].
Qed.

Lemma fold_print_files (ls : list string) (h : host) :
  files (fold_left (fun h line => print line h) ls h) = files h /\
  stdout (fold_left (fun h line => print line h) ls h) = (stdout h ++ ls)%list.
Proof.
  revert h. induction ls as [|x r IH]; intros h; simpl.
  - now rewrite List.app_nil_r.
  - destruct (IH (print x h)) as [Hf Hs]. rewrite Hf, Hs. simpl.
    now rewrite <- List.app_assoc.
Qed.

End UpdateFacts.





(* ================================================================== *)
(** * The converter between the libraries *)

Lemma is_YAMLError_spec (e : exn) :
  is_YAMLError e = true <-> exn_cls e = YAMLError.
Proof.
  unfold is_YAMLError. destruct (exn_cls e); split; intros H;
    try reflexivity; discriminate H.
Qed.

(** The pass gives a Canonical Value for a Canonical Value. *)
Lemma canonical_clean (v : pyval) :
  canonical v = true -> canonical (clean_data_for_yaml v) = true.
Proof.
  induction v as [| | | | s | xs IH | items IH | items IH | ] using pyval_ind_nested;
    try (intros _; reflexivity); try discriminate; intros Hc; simpl in Hc.
  - simpl. rewrite forallb_forall in *. rewrite List.Forall_forall in IH.
    intros x Hx. apply List.in_map_iff in Hx as [x0 [<- Hx0]]. auto.
  - apply andb_true_iff in Hc as [Hk Hv].
    rewrite clean_dict, (clean_items_unique _ Hk). simpl.
    rewrite map_fst_clean_item, Hk. simpl.
    rewrite forallb_forall in *. rewrite List.Forall_forall in IH.
    intros kv Hin. apply List.in_map_iff in Hin as [kv0 [<- Hin0]].
    simpl. auto.
Qed.

(** Every string of the result is normalized. *)
Lemma normalized_clean (v : pyval) :
  canonical v = true -> normalized (clean_data_for_yaml v) = true.
Proof.
  intros Hc. apply clean_data_for_yaml_fixed; [now apply canonical_clean|].
  apply clean_data_for_yaml_idem.
Qed.

Lemma scalar_canonical (v : pyval) : is_scalar v = true -> canonical v = true.
Proof. destruct v; intros H; try reflexivity; discriminate H. Qed.

Lemma scalar_clean (v : pyval) :
  is_scalar v = true -> is_scalar (clean_data_for_yaml v) = true.
Proof. destruct v; intros H; try reflexivity; discriminate H. Qed.

Section RoundTripFacts.

Variable lib : library.

Lemma run_round_trip_json (v : pyval) :
  run (round_trip lib v "json") =
  match json_dumps lib v 2 with
  | Returns t => (json_loads lib t, [CallJsonDumps v 2; CallJsonLoads t])
  | Raises e => (Raises e, [CallJsonDumps v 2])
  end.
Proof.
  unfold round_trip, run, bind.
  change (convert_data lib v "json" [])
    with (json_dumps lib v 2, [CallJsonDumps v 2]).
  destruct (json_dumps lib v 2); reflexivity.
Qed.

Lemma run_round_trip_xml (v : pyval) :
  run (round_trip lib v "xml") =
  match xmltodict_unparse lib v with
  | Returns t => (xmltodict_parse lib t, [CallXmlUnparse v; CallXmlParse t])
  | Raises e => (Raises e, [CallXmlUnparse v])
  end.
Proof.
  unfold round_trip, run, bind.
  change (convert_data lib v "xml" [])
    with (xmltodict_unparse lib v, [CallXmlUnparse v]).
  destruct (xmltodict_unparse lib v); reflexivity.
Qed.

Lemma run_round_trip_yaml (v : pyval) :
  run (round_trip lib v "yaml") =
  run (round_trip lib (clean_data_for_yaml v) "yaml").
Proof.
  unfold round_trip, run, bind.
  change (convert_data lib (clean_data_for_yaml v) "yaml" [])
    with (yaml_dump lib (clean_data_for_yaml (clean_data_for_yaml v)),
          [CallYamlDump (clean_data_for_yaml (clean_data_for_yaml v))]).
  change (convert_data lib v "yaml" [])
    with (yaml_dump lib (clean_data_for_yaml v),
          [CallYamlDump (clean_data_for_yaml v)]).
  now rewrite clean_data_for_yaml_idem.
Qed.

(** A conversion whose directive is accepted and whose input file is
    there. *)
Lemma run_sub_main (fs : string -> option string)
    (input_file mode from_fmt to_fmt content : string) :
  parse_mode mode = Returns (from_fmt, to_fmt) ->
  fs input_file = Some content ->
  run (sub_main lib fs input_file mode) =
  match fst (run (load_data lib content from_fmt)) with
  | Raises e => (Raises e, reader_calls lib from_fmt content)
  | Returns data =>
      (writer_outcome lib to_fmt data,
       (reader_calls lib from_fmt content ++ [writer_call to_fmt data])%list)
  end.
Proof.
  intros Hm Hfs. unfold sub_main, run, bind, lift, read_input_file, ret.
  rewrite Hm, Hfs.
  apply parse_mode_Returns in Hm as (Hf & Ht & _ & _).
  rewrite (load_data_supported lib content from_fmt [] Hf). cbn [fst app].
  destruct (fst (run (load_data lib content from_fmt))) as [data|e];
    [|reflexivity].
  now rewrite (convert_data_supported lib data to_fmt _ Ht).
Qed.

Lemma run_convert_json2yaml (t : string) (v : pyval) :
  json_loads lib t = Returns v ->
  run (convert lib t "json2yaml") =
  (yaml_dump lib (clean_data_for_yaml v),
   [CallJsonLoads t; CallYamlDump (clean_data_for_yaml v)]).
Proof.
  intros Hv. unfold convert.
  rewrite (run_sub_main _ "input" "json2yaml" "json" "yaml" t) by reflexivity.
  unfold run at 1. rewrite load_data_json. cbn [fst]. now rewrite Hv.
Qed.

Lemma run_convert_yaml2json (y : string) :
  run (convert lib y "yaml2json") =
  match fst (run (load_data lib y "yaml")) with
  | Raises e => (Raises e, reader_calls lib "yaml" y)
  | Returns w =>
      (json_dumps lib w 2, (reader_calls lib "yaml" y ++ [CallJsonDumps w 2])%list)
  end.
Proof.
  unfold convert.
  now rewrite (run_sub_main _ "input" "yaml2json" "yaml" "json" y) by reflexivity.
Qed.

End RoundTripFacts.

(** C3, as the code has it.  On a yaml text the reader calls the safe
    parse first.  It calls the extended parse exactly when the safe parse
    raised an exception of class [yaml.YAMLError], and the outcome of the
    extended parse is then the outcome of the reader.  When the safe parse
    returns a value, that value is the result and the safe parse is the
    only call.  When the safe parse raises an exception of another class,
    that exception is the outcome and the safe parse is the only call. *)
Theorem yaml_fallback_on_yaml_error (lib : library) (content : string) :
  let log := snd (run (load_data lib content "yaml")) in
  head log = Some (CallYamlSafeLoad content) /\
  (forall c, In (CallYamlLoad c) log <->
             c = content /\
             exists e, yaml_safe_load lib content = Raises e /\
                       exn_cls e = YAMLError) /\
  (forall v, yaml_safe_load lib content = Returns v ->
             run (load_data lib content "yaml") =
             (Returns v, [CallYamlSafeLoad content])) /\
  (forall e, yaml_safe_load lib content = Raises e ->
             exn_cls e = YAMLError ->
             run (load_data lib content "yaml") =
             (yaml_load lib content,
              [CallYamlSafeLoad content; CallYamlLoad content])) /\
  (forall e, yaml_safe_load lib content = Raises e ->
             exn_cls e <> YAMLError ->
             run (load_data lib content "yaml") =
             (Raises e, [CallYamlSafeLoad content])).
Proof.
  unfold run. rewrite load_data_yaml. unfold safe_parse_fails.
  destruct (yaml_safe_load lib content) as [v|e] eqn:E.
  - cbn. split; [reflexivity|]. split; [|split; [|split]].
    + intros c. split.
      * intros [H|[]]. discriminate H.
      * intros (_ & e & H & _). discriminate H.
    + intros v' [= <-]. reflexivity.
    + intros e H. discriminate H.
    + intros e H. discriminate H.
  - destruct (is_YAMLError e) eqn:Ey.
    + apply is_YAMLError_spec in Ey. cbn.
      split; [reflexivity|]. split; [|split; [|split]].
      * intros c. split.
        -- intros [H|[H|[]]]; [discriminate H|]. injection H as <-.
           split; [reflexivity|]. now exists e.
        -- intros [-> _]. right. now left.
      * intros v H. discriminate H.
      * intros e' _ _. reflexivity.
      * intros e' [= <-] Hn. contradiction.
    + assert (Hn : exn_cls e <> YAMLError).
      { intros H. apply is_YAMLError_spec in H. congruence. }
      cbn. split; [reflexivity|]. split; [|split; [|split]].
      * intros c. split.
        -- intros [H|[]]. discriminate H.
        -- intros (_ & e' & [= <-] & H). contradiction.
      * intros v H. discriminate H.
      * intros e' [= <-] H. contradiction.
      * intros e' [= <-] _. reflexivity.
Qed.

Lemma yaml_fallback_on_yaml_error_witness :
  run (load_data sample_library yaml_of_sample "yaml") =
  (Returns sample_cleaned, [CallYamlSafeLoad yaml_of_sample]).
Proof.
  exact (proj1 (proj2 (proj2
           (yaml_fallback_on_yaml_error sample_library yaml_of_sample)))
           sample_cleaned eq_refl).
Defined.

(** C3, as stated, fails.  The safe parse of the text [!!int abc] raises
    ValueError, which is no [yaml.YAMLError]: the safe parse has failed
    and the extended parse is not called. *)
Lemma yaml_fallback_counterexample :
  safe_parse_raises (yaml_safe_load int_tag_library int_tag_text) = true /\
  run (load_data int_tag_library int_tag_text "yaml") =
    (Raises int_tag_error, [CallYamlSafeLoad int_tag_text]) /\
  ~ forall (lib : library) (content : string),
      safe_parse_raises (yaml_safe_load lib content) = true ->
      In (CallYamlLoad content) (snd (run (load_data lib content "yaml"))).
Proof.
  split; [reflexivity|]. split; [reflexivity|]. intros H.
  specialize (H int_tag_library int_tag_text eq_refl).
  vm_compute in H. destruct H as [H|[]]. discriminate H.
Qed.








(** C10, as the code has it.  A conversion to json or yaml makes no check
    on the root.  When the parse gave a scalar or null, the json writer
    hands that scalar to [json.dumps], the yaml writer hands the cleaned
    scalar to [yaml.dump], and the outcome of that one call, a text or an
    exception, is the outcome of the conversion.  The cleaned scalar is a
    scalar; it is the scalar itself unless the target is yaml and the
    scalar is a string with trailing whitespace. *)
Theorem scalar_root_unchecked (lib : library) (fs : string -> option string)
    (input_file mode from_fmt to_fmt content : string) (v : pyval) :
  parse_mode mode = Returns (from_fmt, to_fmt) ->
  to_fmt <> "xml" ->
  fs input_file = Some content ->
  fst (run (load_data lib content from_fmt)) = Returns v ->
  is_scalar v = true ->
  run (sub_main lib fs input_file mode) =
    (library_dump lib to_fmt (written_value to_fmt v),
     (reader_calls lib from_fmt content ++ [writer_call to_fmt v])%list) /\
  writer_call to_fmt v =
    (if String.eqb to_fmt "json" then CallJsonDumps v 2
     else CallYamlDump (written_value to_fmt v)) /\
  is_scalar (written_value to_fmt v) = true /\
  (written_value to_fmt v = v <-> to_fmt = "json" \/ normalized v = true) /\
  (forall t, fst (run (sub_main lib fs input_file mode)) = Returns t <->
             library_dump lib to_fmt (written_value to_fmt v) = Returns t).
Proof.
  intros Hm Hx Hfs Hv Hs.
  rewrite (run_sub_main lib fs input_file mode from_fmt to_fmt content Hm Hfs).
  rewrite Hv.
  apply parse_mode_Returns in Hm as (_ & Ht & _ & _).
  destruct Ht as [<-|[<-|[<-|[]]]]; [contradiction| |].
  - split; [reflexivity|]. split; [reflexivity|]. split; [exact Hs|].
    split; [|intros t; reflexivity].
    split; [now left | reflexivity].
  - split; [reflexivity|]. split; [reflexivity|].
    split; [now apply scalar_clean|]. split; [|intros t; reflexivity].
    change (written_value "yaml" v) with (clean_data_for_yaml v).
    rewrite (clean_data_for_yaml_fixed v (scalar_canonical v Hs)).
    split; [now right | intros [H|H]; [discriminate H | exact H]].
Qed.

Lemma scalar_root_unchecked_witness :
  run (sub_main sample_library (fun _ => Some "") "empty.yaml" "yaml2json") =
  (Returns "null", [CallYamlSafeLoad ""; CallJsonDumps PNone 2]).
Proof.
  refine (proj1 (scalar_root_unchecked sample_library (fun _ => Some "")
                   "empty.yaml" "yaml2json" "yaml" "json" "" PNone
                   eq_refl _ eq_refl eq_refl eq_refl)).
  intros H. discriminate H.
Defined.

(** C10, as stated, fails twice.  For a string root with trailing
    whitespace and a yaml target no library is handed that scalar: the
    writer hands over the cleaned one.  And the conversion of a scalar
    root succeeds only if the serializer does: for the integer root of a
    long base-16 literal and a json target, [json.dumps] raises and so
    does the conversion. *)
Lemma scalar_root_yaml_counterexample :
  is_scalar (PStr "a ") = true /\
  (forall lib : library,
      json_loads lib json_str_a_space = Returns (PStr "a ") ->
      snd (run (convert lib json_str_a_space "json2yaml")) =
      [CallJsonLoads json_str_a_space; CallYamlDump (PStr "a")]) /\
  (~ exists lib : library,
       json_loads lib json_str_a_space = Returns (PStr "a ") /\
       In (CallYamlDump (PStr "a "))
          (snd (run (convert lib json_str_a_space "json2yaml")))) /\
  is_scalar hex_int = true /\
  run (convert digit_limit_library hex_int_text "yaml2json") =
    (Raises digit_limit_error,
     [CallYamlSafeLoad hex_int_text; CallJsonDumps hex_int 2]) /\
  ~ forall (lib : library) (t : string) (v : pyval),
      fst (run (load_data lib t "yaml")) = Returns v ->
      is_scalar v = true ->
      exists out, fst (run (convert lib t "yaml2json")) = Returns out.
Proof.
  assert (Hlog : forall lib : library,
             json_loads lib json_str_a_space = Returns (PStr "a ") ->
             snd (run (convert lib json_str_a_space "json2yaml")) =
             [CallJsonLoads json_str_a_space; CallYamlDump (PStr "a")]).
  { intros lib Hv.
    now rewrite (run_convert_json2yaml lib json_str_a_space (PStr "a ") Hv). }
  assert (Hrun : run (convert digit_limit_library hex_int_text "yaml2json") =
                 (Raises digit_limit_error,
                  [CallYamlSafeLoad hex_int_text; CallJsonDumps hex_int 2])).
  { vm_compute. reflexivity. }
  split; [reflexivity|]. split; [exact Hlog|]. split.
  { intros (lib & Hv & Hin). rewrite (Hlog lib Hv) in Hin.
    destruct Hin as [H|[H|[]]]; discriminate H. }
  split; [reflexivity|]. split; [exact Hrun|].
  intros H.
  destruct (H digit_limit_library hex_int_text hex_int) as [out Hout].
  - vm_compute. reflexivity.
  - reflexivity.
  - rewrite Hrun in Hout. discriminate Hout.
Qed.

(* ================================================================== *)
(** * The effects of sub_main on the host *)



(* ================================================================== *)
(** * When the update of the tool tables raises *)

Lemma copied_into_nothing (entries t : list (string * Pyproject.item)) :
  has_copied_entry entries = false -> copied_into entries t = t.
Proof.
  unfold has_copied_entry, copied_into.
  induction entries as [|[k x] r IH]; simpl; [reflexivity|].
  intros H. apply orb_false_iff in H as [Hk Hr]. rewrite Hk. now apply IH.
Qed.

(** X12.  When the update raises and when it changes nothing.  A
    template whose [tool] is not a table makes it raise the exception of
    [items()].  A template whose [tool] table has an entry other than
    [uv], over a project whose [tool] is not a table, makes it raise the
    exception of the item assignment.  A template without [tool], and a
    template whose [tool] table holds nothing but [uv] over a project that
    has a [tool], leave the project document as it was. *)
Theorem merge_tools_raises_when (env : Pyproject.environment)
    (g p : Pyproject.document) :
  (forall x, dict_get g "tool" = Some (Pyproject.Other x) ->
             Pyproject.merge_tools env g p =
             Raises (Pyproject.items_error env (Pyproject.Other x))) /\
  (forall entries y,
      dict_get g "tool" = Some (Pyproject.Table entries) ->
      has_copied_entry entries = true ->
      dict_get p "tool" = Some (Pyproject.Other y) ->
      Pyproject.merge_tools env g p =
      Raises (Pyproject.setitem_error env (Pyproject.Other y))) /\
  (dict_get g "tool" = None -> Pyproject.merge_tools env g p = Returns p) /\
  (forall entries tool,
      dict_get g "tool" = Some (Pyproject.Table entries) ->
      has_copied_entry entries = false ->
      dict_get p "tool" = Some tool ->
      Pyproject.merge_tools env g p = Returns p).
Proof.
  rewrite merge_tools_cases. split; [|split; [|split]].
  - intros x ->. reflexivity.
  - intros entries y -> Hc ->. now rewrite Hc.
  - intros ->. reflexivity.
  - intros entries tool -> Hc Hp. rewrite Hp. destruct tool as [t|y].
    + rewrite (copied_into_nothing entries t Hc).
      now rewrite (dict_setitem_get_id p "tool" (Pyproject.Table t) Hp).
    + now rewrite Hc.
Qed.

Lemma merge_tools_raises_when_witness :
  Pyproject.merge_tools sample_environment sample_template
    [("tool", Pyproject.Other "1")] =
  Raises (Pyproject.setitem_error sample_environment (Pyproject.Other "1")).
Proof.
  exact (proj1 (proj2
           (merge_tools_raises_when sample_environment sample_template
              [("tool", Pyproject.Other "1")]))
           _ "1" eq_refl eq_refl eq_refl).
Defined.
